(** * Species, traps and implicit species of the hydrogen-transport model

    A shallow embedding of [festim/species.py] and
    [festim/subdomain/surface_subdomain.py].

    Python objects live in a store and are named by their address, so that
    two attributes holding the same object hold the same address.  Methods
    are computations in a state-and-exception monad over that store.  The
    finite-element runtime (dolfinx, ufl) is outside the program: its field
    objects are formal terms, whose sums and differences it makes of
    operands of one shape only, and its geometric query is a parameter. *)

From Stdlib Require Import ZArith QArith String List Lia.
From stdpp Require Import base option list strings pretty.

Local Open Scope Z_scope.
Local Open Scope string_scope.

(** ** Python values *)

(** A plain Python number.  The program only tests [isinstance(v, (int,
    float))] and moves numbers around; a float is represented by the
    rational it denotes. *)
Inductive number :=
| PyInt (z : Z)
| PyFloat (q : Q).

(** Handles on objects that the finite-element runtime owns. *)
Definition Mesh := nat.
Definition VolumeSubdomain := nat.

(** Address of an object in the store. *)
Definition loc := nat.

(** What a variable or attribute that refers to an object holds: [None],
    or the address of the object. *)
Definition ref := option loc.

(** Field objects of the runtime, as the formal terms that its overloaded
    operators build: [fem.Constant] (a mutable cell, by address),
    [fem.Function], [ufl.SpatialCoordinate] and arithmetic over them. *)
Inductive expr :=
| Lit (k : number)
| Constant (c : loc)
| Function (u : nat)
| SpatialCoordinate (m : Mesh)
| Index (e : expr) (i : Z)
| Sum (a b : expr)
| Diff (a b : expr)
| Product (a b : expr).

Inductive value :=
| VNone
| VNum (k : number)
| VStr (s : string)
| VList (l : list number)
| VExpr (e : expr).

Inductive exn :=
| TypeError
| ValueError (msg : string)
| AttributeError
| IndexError
| ReferenceError.

Inductive result (A : Type) :=
| Ok (a : A)
| Raise (e : exn).
Arguments Ok {A} a.
Arguments Raise {A} e.

(** Keyword arguments of a call, in the order the dict was filled. *)
Definition keywords := list (string * value).

(** A Python function object: the names in [__code__.co_varnames] and what
    a keyword call returns or raises. *)
Record function := {
  co_varnames : list string;
  body : keywords -> result value
}.

(** What the attribute [n] of a trap or implicit species may hold. *)
Inductive spec :=
| NVal (v : value)
| NFun (f : function).

(** ** Objects *)

Record Species := {
  name : option string;
  mobile : bool;
  solution : value;
  prev_solution : value;
  test_function : value;
  sub_function_space : value;
  post_processing_solution : value;
  collapsed_function_space : value
}.

(** [Trap] extends [Species].  [empty_trap_sites] is not assigned by
    [__init__]: [None] there stands for the missing attribute. *)
Record Trap := {
  trap_species : Species;
  mobile_species : ref;
  k_0 : value;
  E_k : value;
  p_0 : value;
  E_p : value;
  trap_n : spec;
  volume : VolumeSubdomain;
  trapped_concentration : ref;
  empty_trap_sites : ref;
  reaction : ref
}.

(** [others] is [None] when the constructor's default was kept;
    [value_fenics] is [None] until [create_value_fenics] assigns the
    attribute. *)
Record ImplicitSpecies := {
  imp_name : option string;
  n : spec;
  others : option (list ref);
  value_fenics : option value
}.

(** Modelled from the spec: the class [festim.Reaction] is not part of the
    sources at hand; the spec gives its constructor as accepting
    [(reactant_list, product, k_0, E_k, p_0, E_p, volume)] and being opaque
    to this code, so an instance is the record of what it was given. *)
Record Reaction := {
  reactant : list ref;
  product : ref;
  reaction_k_0 : value;
  reaction_E_k : value;
  reaction_p_0 : value;
  reaction_E_p : value;
  reaction_volume : VolumeSubdomain
}.

(** A [fem.Constant] of the runtime: a constant field on a mesh, whose
    value can be overwritten in place. *)
Record ConstantField := {
  constant_mesh : Mesh;
  constant_value : number
}.

Record SurfaceSubdomain := {
  id : Z
}.

Inductive obj :=
| OSpecies (s : Species)
| OTrap (t : Trap)
| OImplicitSpecies (i : ImplicitSpecies)
| OReaction (r : Reaction)
| OConstant (c : ConstantField)
| OSurfaceSubdomain (s : SurfaceSubdomain).

(** ** The store and the monad *)

(** The store of objects and the log of the keyword calls made to user
    functions, oldest first. *)
Record world := {
  heap : list obj;
  calls : list keywords
}.

Definition M (A : Type) : Type := world -> result A * world.

Definition ret {A} (a : A) : M A := fun w => (Ok a, w).

Definition raise {A} (e : exn) : M A := fun w => (Raise e, w).

Definition bind {A B} (m : M A) (k : A -> M B) : M B :=
  fun w =>
    match m w with
    | (Ok a, w') => k a w'
    | (Raise e, w') => (Raise e, w')
    end.

Declare Scope py_scope.
Delimit Scope py_scope with py.
Notation "x <- m ;; k" := (bind m (fun x => k))
  (at level 100, m at next level, right associativity) : py_scope.
Notation "m ;;; k" := (bind m (fun _ => k))
  (at level 100, right associativity) : py_scope.
Local Open Scope py_scope.

Definition lift {A} (r : result A) : M A := fun w => (r, w).

(** Dereference an address. *)
Definition deref (l : loc) : M obj :=
  fun w =>
    match heap w !! l with
    | Some o => (Ok o, w)
    | None => (Raise ReferenceError, w)
    end.

(** The object behind a reference, for an attribute access: [None] has
    none of the attributes read here. *)
Definition target (r : ref) : M obj :=
  match r with
  | Some l => deref l
  | None => raise AttributeError
  end.

(** Overwrite the object at an address (attribute assignment). *)
Definition store (l : loc) (o : obj) : M unit :=
  fun w => (Ok tt, {| heap := <[l := o]> (heap w); calls := calls w |}).

(** Allocate a fresh object at the end of the store. *)
Definition new (o : obj) : M loc :=
  fun w => (Ok (length (heap w)), {| heap := heap w ++ [o]; calls := calls w |}).

(** Call a user function with keyword arguments: the call is logged, then
    answers what the function answers. *)
Definition call (f : function) (kw : keywords) : M value :=
  fun w => (body f kw, {| heap := heap w; calls := calls w ++ [kw] |}).

Fixpoint mapM {A B} (f : A -> M B) (l : list A) : M (list B) :=
  match l with
  | [] => ret []
  | a :: l' => b <- f a ;; bs <- mapM f l' ;; ret (b :: bs)
  end.

(** [for a in l: f(a)] *)
Fixpoint forM {A} (f : A -> M unit) (l : list A) : M unit :=
  match l with
  | [] => ret tt
  | a :: l' => f a ;;; forM f l'
  end.

(** ** Built-in operations of the language and of the runtime *)

(** [s in arguments] for a tuple of names. *)
Definition py_in (s : string) (names : list string) : bool :=
  existsb (String.eqb s) names.

(** [str(x)] of a name attribute, as an f-string formats it. *)
Definition py_str (o : option string) : string :=
  match o with
  | Some s => s
  | None => "None"
  end.

(** [isinstance(v, (int, float))] *)
Definition is_number (v : value) : bool :=
  match v with
  | VNum _ => true
  | _ => false
  end.

(** [str(type(v))], as the f-string of the error message formats it.  For
    field objects the class is the one of the outermost node. *)
Definition py_type (v : value) : string :=
  match v with
  | VNone => "<class 'NoneType'>"
  | VNum (PyInt _) => "<class 'int'>"
  | VNum (PyFloat _) => "<class 'float'>"
  | VStr _ => "<class 'str'>"
  | VList _ => "<class 'list'>"
  | VExpr (Lit _) => "<class 'ufl.constantvalue.ScalarValue'>"
  | VExpr (Constant _) => "<class 'dolfinx.fem.function.Constant'>"
  | VExpr (Function _) => "<class 'dolfinx.fem.function.Function'>"
  | VExpr (SpatialCoordinate _) => "<class 'ufl.geometry.SpatialCoordinate'>"
  | VExpr (Index _ _) => "<class 'ufl.indexed.Indexed'>"
  | VExpr (Sum _ _) => "<class 'ufl.algebra.Sum'>"
  | VExpr (Diff _ _) => "<class 'ufl.algebra.Sum'>"
  | VExpr (Product _ _) => "<class 'ufl.algebra.Product'>"
  end.

Definition to_Q (k : number) : Q :=
  match k with
  | PyInt z => inject_Z z
  | PyFloat q => q
  end.

Definition num_add (a b : number) : number :=
  match a, b with
  | PyInt x, PyInt y => PyInt (x + y)
  | _, _ => PyFloat (Qred (to_Q a + to_Q b))
  end.

Definition num_sub (a b : number) : number :=
  match a, b with
  | PyInt x, PyInt y => PyInt (x - y)
  | _, _ => PyFloat (Qred (to_Q a - to_Q b))
  end.

(** Every spatial coordinate in the term is the one of the mesh [m]. *)
Fixpoint on_mesh (m : Mesh) (e : expr) : bool :=
  match e with
  | Lit _ => true
  | Constant _ => true
  | Function _ => true
  | SpatialCoordinate m' => (m' =? m)%nat
  | Index e _ => on_mesh m e
  | Sum a b => on_mesh m a && on_mesh m b
  | Diff a b => on_mesh m a && on_mesh m b
  | Product a b => on_mesh m a && on_mesh m b
  end.

(** The rank of a field, the length of its shape ([len(e.ufl_shape)]): 0
    for a scalar, 1 for a vector.  The constants and functions of the
    embedding are scalar fields, and a spatial coordinate is a vector of
    the geometric dimension of its mesh, so that two fields on one mesh
    ([on_mesh]) have the same shape exactly when they have the same
    rank. *)
Fixpoint rank (e : expr) : nat :=
  match e with
  | Lit _ => 0
  | Constant _ => 0
  | Function _ => 0
  | SpatialCoordinate _ => 1
  | Index e _ => pred (rank e)
  | Sum a _ => rank a
  | Diff a _ => rank a
  | Product a b =>
      match rank a, rank b with
      | O, r => r
      | r, O => r
      | _, r => r
      end
  end.

(** The message of the [ValueError] of the runtime for a sum or a
    difference of fields of different shapes. *)
Definition different_shapes : string :=
  "Can't add expressions with different shapes.".

(** [o == 0] for a plain number. *)
Definition is_zero (k : number) : bool :=
  match k with
  | PyInt z => (z =? 0)%Z
  | PyFloat q => Qeq_bool q 0
  end.

(** The sum and the difference of two fields as the runtime makes them:
    the formal term when the shapes agree, a [ValueError] otherwise. *)
Definition ufl_sum (a b : expr) : result value :=
  if (rank a =? rank b)%nat
  then Ok (VExpr (Sum a b))
  else Raise (ValueError different_shapes).

Definition ufl_diff (a b : expr) : result value :=
  if (rank a =? rank b)%nat
  then Ok (VExpr (Diff a b))
  else Raise (ValueError different_shapes).

(** [a + b].  With a field operand the runtime makes the sum, a plain
    number counting as a scalar field; a plain zero on the left of a field
    answers the field itself, of any shape, which is what lets the
    built-in [sum] start from 0. *)
Definition py_add (a b : value) : result value :=
  match a, b with
  | VNum x, VNum y => Ok (VNum (num_add x y))
  | VNum x, VExpr e => if is_zero x then Ok (VExpr e) else ufl_sum (Lit x) e
  | VExpr e, VNum y => ufl_sum e (Lit y)
  | VExpr e1, VExpr e2 => ufl_sum e1 e2
  | VStr s1, VStr s2 => Ok (VStr (s1 ++ s2))
  | VList l1, VList l2 => Ok (VList (l1 ++ l2))
  | _, _ => Raise TypeError
  end.

(** [a - b].  With a field operand the runtime makes the difference, a
    plain number counting as a scalar field. *)
Definition py_sub (a b : value) : result value :=
  match a, b with
  | VNum x, VNum y => Ok (VNum (num_sub x y))
  | VNum x, VExpr e => ufl_diff (Lit x) e
  | VExpr e, VNum y => ufl_diff e (Lit y)
  | VExpr e1, VExpr e2 => ufl_diff e1 e2
  | _, _ => Raise TypeError
  end.

(** The built-in [sum(l)]: a left fold of [+] that starts from the
    integer [0]. *)
Fixpoint py_sum_from (acc : value) (l : list value) : result value :=
  match l with
  | [] => Ok acc
  | v :: l' =>
      match py_add acc v with
      | Ok acc' => py_sum_from acc' l'
      | Raise e => Raise e
      end
  end.

Definition py_sum (l : list value) : result value :=
  py_sum_from (VNum (PyInt 0)) l.

(** [float(t)]: a plain number, or a scalar [fem.Constant], which answers
    with its current value. *)
Definition py_float (t : value) : M number :=
  match t with
  | VNum k => ret (PyFloat (to_Q k))
  | VExpr (Constant c) =>
      o <- deref c ;;
      match o with
      | OConstant k => ret (PyFloat (to_Q (constant_value k)))
      | _ => raise TypeError
      end
  | _ => raise TypeError
  end.

(** Modelled from the spec: [festim.as_fenics_constant] is not part of the
    sources at hand; the spec gives it as the runtime's "wrap scalar as
    constant field" constructor.  A number becomes a new [fem.Constant] on
    the mesh; the program hands it nothing else. *)
Definition as_fenics_constant (mesh : Mesh) (v : value) : M value :=
  match v with
  | VNum k =>
      c <- new (OConstant {| constant_mesh := mesh; constant_value := k |}) ;;
      ret (VExpr (Constant c))
  | _ => raise TypeError
  end.

(** [c.value = v] on a [fem.Constant]: the setter of the runtime, which
    overwrites the value of the constant in place. *)
Definition set_constant_value (c : loc) (v : value) : M unit :=
  o <- deref c ;;
  match o, v with
  | OConstant k, VNum x =>
      store c (OConstant {| constant_mesh := constant_mesh k; constant_value := x |})
  | OConstant _, _ => raise TypeError
  | _, _ => raise AttributeError
  end.

(** ** Attribute access *)

(** [o.solution]: species and traps have the attribute. *)
Definition get_solution (r : ref) : M value :=
  o <- target r ;;
  match o with
  | OSpecies s => ret (solution s)
  | OTrap t => ret (solution (trap_species t))
  | _ => raise AttributeError
  end.

(** [o.name] *)
Definition get_name (r : ref) : M (option string) :=
  o <- target r ;;
  match o with
  | OSpecies s => ret (name s)
  | OTrap t => ret (name (trap_species t))
  | OImplicitSpecies i => ret (imp_name i)
  | _ => raise AttributeError
  end.

(** [o.id] *)
Definition get_id (r : ref) : M Z :=
  o <- target r ;;
  match o with
  | OSurfaceSubdomain s => ret (id s)
  | _ => raise AttributeError
  end.

(** [self] of a method of [ImplicitSpecies]. *)
Definition get_implicit (self : loc) : M ImplicitSpecies :=
  o <- deref self ;;
  match o with
  | OImplicitSpecies i => ret i
  | _ => raise AttributeError
  end.

(** [self] of a method of [Trap]. *)
Definition get_trap (self : loc) : M Trap :=
  o <- deref self ;;
  match o with
  | OTrap t => ret t
  | _ => raise AttributeError
  end.

(** The implicit species [i] once its attribute [value_fenics] holds [v]. *)
Definition bound (i : ImplicitSpecies) (v : value) : ImplicitSpecies :=
  {| imp_name := imp_name i; n := n i; others := others i;
     value_fenics := Some v |}.

(** [self.value_fenics = v] *)
Definition set_value_fenics (self : loc) (v : value) : M unit :=
  i <- get_implicit self ;;
  store self (OImplicitSpecies (bound i v)).

(** ** [species.py] *)

(** [Species.__init__(self, name=None, mobile=True)] *)
Definition Species_init (name : option string) (mobile : bool) : Species :=
  {| name := name;
     mobile := mobile;
     solution := VNone;
     prev_solution := VNone;
     test_function := VNone;
     sub_function_space := VNone;
     post_processing_solution := VNone;
     collapsed_function_space := VNone |}.

(** [Species(name, mobile)]: a new object. *)
Definition Species_new (name : option string) (mobile : bool) : M loc :=
  new (OSpecies (Species_init name mobile)).

(** The property [Species.concentration]. *)
Definition Species_concentration (self : loc) : M value :=
  get_solution (Some self).

(** [Trap.__init__]: [super().__init__(name)] keeps [mobile=True]. *)
Definition Trap_init (name : option string) (mobile_species : ref)
    (k_0 E_k p_0 E_p : value) (n : spec) (volume : VolumeSubdomain) : Trap :=
  {| trap_species := Species_init name true;
     mobile_species := mobile_species;
     k_0 := k_0;
     E_k := E_k;
     p_0 := p_0;
     E_p := E_p;
     trap_n := n;
     volume := volume;
     trapped_concentration := None;
     empty_trap_sites := None;
     reaction := None |}.

Definition Trap_new (name : option string) (mobile_species : ref)
    (k_0 E_k p_0 E_p : value) (n : spec) (volume : VolumeSubdomain) : M loc :=
  new (OTrap (Trap_init name mobile_species k_0 E_k p_0 E_p n volume)).

(** [ImplicitSpecies.__init__(self, n, others=None, name=None)] *)
Definition ImplicitSpecies_init (n : spec) (others : option (list ref))
    (name : option string) : ImplicitSpecies :=
  {| imp_name := name; n := n; others := others; value_fenics := None |}.

Definition ImplicitSpecies_new (n : spec) (others : option (list ref))
    (name : option string) : M loc :=
  new (OImplicitSpecies (ImplicitSpecies_init n others name)).

(** [F.Reaction(reactant=..., product=..., k_0=..., ...)] *)
Definition Reaction_new (reactant : list ref) (product : ref)
    (k_0 E_k p_0 E_p : value) (volume : VolumeSubdomain) : M loc :=
  new (OReaction
    {| reactant := reactant; product := product;
       reaction_k_0 := k_0; reaction_E_k := E_k;
       reaction_p_0 := p_0; reaction_E_p := E_p;
       reaction_volume := volume |}).

Definition set_trapped_concentration (self : loc) (l : loc) : M unit :=
  t <- get_trap self ;;
  store self (OTrap
    {| trap_species := trap_species t; mobile_species := mobile_species t;
       k_0 := k_0 t; E_k := E_k t; p_0 := p_0 t; E_p := E_p t;
       trap_n := trap_n t; volume := volume t;
       trapped_concentration := Some l;
       empty_trap_sites := empty_trap_sites t;
       reaction := reaction t |}).

Definition set_empty_trap_sites (self : loc) (l : loc) : M unit :=
  t <- get_trap self ;;
  store self (OTrap
    {| trap_species := trap_species t; mobile_species := mobile_species t;
       k_0 := k_0 t; E_k := E_k t; p_0 := p_0 t; E_p := E_p t;
       trap_n := trap_n t; volume := volume t;
       trapped_concentration := trapped_concentration t;
       empty_trap_sites := Some l;
       reaction := reaction t |}).

Definition set_reaction (self : loc) (l : loc) : M unit :=
  t <- get_trap self ;;
  store self (OTrap
    {| trap_species := trap_species t; mobile_species := mobile_species t;
       k_0 := k_0 t; E_k := E_k t; p_0 := p_0 t; E_p := E_p t;
       trap_n := trap_n t; volume := volume t;
       trapped_concentration := trapped_concentration t;
       empty_trap_sites := empty_trap_sites t;
       reaction := Some l |}).

(** [Trap.create_species_and_reaction(self)].  Each [self.attr] is read
    from the store when the statement that mentions it runs. *)
Definition create_species_and_reaction (self : loc) : M unit :=
  t <- get_trap self ;;
  tc <- Species_new (name (trap_species t)) false ;;
  set_trapped_concentration self tc ;;;
  t <- get_trap self ;;
  ets <- ImplicitSpecies_new (trap_n t) (Some [trapped_concentration t]) None ;;
  set_empty_trap_sites self ets ;;;
  t <- get_trap self ;;
  r <- Reaction_new [mobile_species t; empty_trap_sites t]
         (trapped_concentration t)
         (k_0 t) (E_k t) (p_0 t) (E_p t) (volume t) ;;
  set_reaction self r.

(** The message of the error that [ImplicitSpecies.concentration] raises. *)
Definition no_solution_message (self_name other_name : option string) : string :=
  "Cannot compute concentration of " ++ py_str self_name
  ++ " because " ++ py_str other_name ++ " has no solution".

(** The body of the loop in [ImplicitSpecies.concentration]. *)
Definition check_solution (self_name : option string) (other : ref) : M unit :=
  s <- get_solution other ;;
  match s with
  | VNone =>
      other_name <- get_name other ;;
      raise (ValueError (no_solution_message self_name other_name))
  | _ => ret tt
  end.

(** [self.value_fenics], an attribute that may not have been assigned. *)
Definition get_value_fenics (i : ImplicitSpecies) : M value :=
  match value_fenics i with
  | Some v => ret v
  | None => raise AttributeError
  end.

(** The property [ImplicitSpecies.concentration]. *)
Definition concentration (self : loc) : M value :=
  i <- get_implicit self ;;
  match others i with
  | None => raise TypeError
  | Some os =>
      (if (0 <? length os)%nat
       then forM (check_solution (imp_name i)) os
       else ret tt) ;;;
      v <- get_value_fenics i ;;
      sols <- mapM get_solution os ;;
      total <- lift (py_sum sols) ;;
      lift (py_sub v total)
  end.

(** The message of the error that [create_value_fenics] raises. *)
Definition not_a_number_message (r : value) : string :=
  "self.value should return a float or an int, not " ++ py_type r ++ " ".

(** [ImplicitSpecies.create_value_fenics(self, mesh, t)] *)
Definition create_value_fenics (self : loc) (mesh : Mesh) (t : value) : M unit :=
  let x := VExpr (SpatialCoordinate mesh) in
  i <- get_implicit self ;;
  match n i with
  | NVal (VNum k) =>
      c <- as_fenics_constant mesh (VNum k) ;;
      set_value_fenics self c
  | NVal (VExpr e) =>
      set_value_fenics self (VExpr e)
  | NVal _ => ret tt
  | NFun f =>
      let arguments := co_varnames f in
      if py_in "t" arguments && negb (py_in "x" arguments)
         && negb (py_in "T" arguments)
      then
        tf <- py_float t ;;
        r <- call f [("t", VNum tf)] ;;
        if is_number r
        then
          tf <- py_float t ;;
          r <- call f [("t", VNum tf)] ;;
          c <- as_fenics_constant mesh r ;;
          set_value_fenics self c
        else
          tf <- py_float t ;;
          r <- call f [("t", VNum tf)] ;;
          raise (ValueError (not_a_number_message r))
      else
        let kwargs : keywords := [] in
        let kwargs : keywords :=
          if py_in "t" arguments then (kwargs ++ [("t", t)])%list else kwargs in
        let kwargs : keywords :=
          if py_in "x" arguments then (kwargs ++ [("x", x)])%list else kwargs in
        r <- call f kwargs ;;
        set_value_fenics self r
  end.

(** [ImplicitSpecies.update_density(self, t)].  A field object of the
    runtime answers [callable] (ufl expressions define [__call__]) but has
    no [__code__]. *)
Definition update_density (self : loc) (t : value) : M unit :=
  i <- get_implicit self ;;
  match n i with
  | NFun f =>
      let arguments := co_varnames f in
      v <- get_value_fenics i ;;
      match v with
      | VExpr (Constant c) =>
          if py_in "t" arguments
          then r <- call f [("t", t)] ;; set_constant_value c r
          else ret tt
      | _ => ret tt
      end
  | NVal (VExpr _) => raise AttributeError
  | NVal _ => ret tt
  end.

Definition species_not_found (name : string) : string :=
  "Species " ++ name ++ " not found in list of species".

(** [find_species_from_name(name, species)] *)
Fixpoint find_species_from_name (name : string) (species : list ref) : M ref :=
  match species with
  | [] => raise (ValueError (species_not_found name))
  | spe :: rest =>
      spe_name <- get_name spe ;;
      if decide (spe_name = Some name)
      then ret spe
      else find_species_from_name name rest
  end.

(** ** [surface_subdomain.py] *)

(** What a query answers: a numpy array of indices, or one of its
    entries. *)
Inductive ndvalue :=
| Scalar (z : Z)
| Array (l : list Z).

(** A point of the mesh geometry. *)
Definition point : Type := Q * Q * Q.

(** A marker as the geometric service expects it: from the coordinates of
    the candidate points to one flag per point. *)
Definition marker := list point -> list bool.

(** [lambda x: np.full(x.shape[1], True, dtype=bool)] *)
Definition accept_all : marker :=
  fun x => replicate (length x) true.

(** [indices[0]] on a one-dimensional array. *)
Definition first_entry (indices : list Z) : result ndvalue :=
  match indices with
  | [] => Raise IndexError
  | i :: _ => Ok (Scalar i)
  end.

Section SurfaceSubdomain.

(** [dolfinx.mesh.locate_entities_boundary]: the geometric service, which
    answers the ordered array of the indices of the boundary entities of
    the given dimension that the marker accepts. *)
Variable locate_entities_boundary : Mesh -> Z -> marker -> list Z.

(** [SurfaceSubdomain.locate_boundary_facet_indices(self, mesh, fdim)] *)
Definition locate_boundary_facet_indices (self : SurfaceSubdomain)
    (mesh : Mesh) (fdim : Z) : result ndvalue :=
  let indices := locate_entities_boundary mesh fdim accept_all in
  first_entry indices.

End SurfaceSubdomain.

Definition id_not_found (id : Z) : string :=
  "id " ++ pretty id ++ " not found in list of surfaces".

(** [find_surface_from_id(id, surfaces)] *)
Fixpoint find_surface_from_id (id : Z) (surfaces : list ref) : M ref :=
  match surfaces with
  | [] => raise (ValueError (id_not_found id))
  | surf :: rest =>
      surf_id <- get_id surf ;;
      if decide (surf_id = id)
      then ret surf
      else find_surface_from_id id rest
  end.

(** ** What a field term denotes *)

(** Values of the atoms at the point of evaluation; for a vector field, the
    value of the component looked at.  A constant denotes the value its cell
    holds in the store. *)
Record valuation := {
  function_at : nat -> Q;
  coordinate_at : Mesh -> Q;
  component_at : Q -> Z -> Q
}.

Fixpoint denote (h : list obj) (rho : valuation) (e : expr) : Q :=
  match e with
  | Lit k => to_Q k
  | Constant c =>
      match h !! c with
      | Some (OConstant k) => to_Q (constant_value k)
      | _ => 0%Q
      end
  | Function u => function_at rho u
  | SpatialCoordinate m => coordinate_at rho m
  | Index e i => component_at rho (denote h rho e) i
  | Sum a b => (denote h rho a + denote h rho b)%Q
  | Diff a b => (denote h rho a - denote h rho b)%Q
  | Product a b => (denote h rho a * denote h rho b)%Q
  end.

(** ** A geometric service to run the surface query on

    The boundary of an interval mesh of ten cells: its facets are the end
    points, which the service numbers 0 and 10. *)
Definition interval_boundary : list (Z * point) :=
  [(0, (0%Q, 0%Q, 0%Q)); (10, (1%Q, 0%Q, 0%Q))].

Definition interval_service (mesh : Mesh) (fdim : Z) (mark : marker) : list Z :=
  if decide (fdim = 0)
  then
    let flags := mark (map snd interval_boundary) in
    map (fun p => fst (fst p))
        (filter (fun p => snd p = true) (zip interval_boundary flags))
  else [].

(** ** Vocabulary of the statements *)

(** The object behind [r] has the name [nm]. *)
Definition named (w : world) (nm : string) (r : ref) : Prop :=
  get_name r w = (Ok (Some nm), w).

(** The object behind [r] has the id [k]. *)
Definition has_id (w : world) (k : Z) (r : ref) : Prop :=
  get_id r w = (Ok k, w).

(** The object behind [r] has a [solution] attribute, which holds [s]. *)
Definition solution_is (w : world) (r : ref) (s : value) : Prop :=
  get_solution r w = (Ok s, w).

(** The trap [t] once its three derived attributes hold the objects at
    the addresses [tc], [ets] and [rx]. *)
Definition expanded (t : Trap) (tc ets rx : loc) : Trap :=
  {| trap_species := trap_species t; mobile_species := mobile_species t;
     k_0 := k_0 t; E_k := E_k t; p_0 := p_0 t; E_p := E_p t;
     trap_n := trap_n t; volume := volume t;
     trapped_concentration := Some tc;
     empty_trap_sites := Some ets;
     reaction := Some rx |}.

(** ** Programs and stores to run the methods on *)

(** [lambda t: [1, 2]] *)
Definition lambda_t_list : function :=
  {| co_varnames := ["t"];
     body := fun kw =>
       match kw with
       | [("t", _)] => Ok (VList [PyInt 1; PyInt 2])
       | _ => Raise TypeError
       end |}.

(** [lambda t: t] on numbers *)
Definition lambda_t_t : function :=
  {| co_varnames := ["t"];
     body := fun kw =>
       match kw with
       | [("t", VNum k)] => Ok (VNum k)
       | _ => Raise TypeError
       end |}.


(** A store with the time of the simulation, a [fem.Constant] of value
    [0.0] at address 0, and at address 1 an implicit species of the given
    total and dependencies. *)
Definition world_of (nspec : spec) (others : option (list ref)) : world :=
  {| heap := [OConstant {| constant_mesh := 0%nat; constant_value := PyFloat 0 |};
              OImplicitSpecies (ImplicitSpecies_init nspec others (Some "sites"))];
     calls := [] |}.

Definition list_world : world := world_of (NFun lambda_t_list) (Some []).

Definition time_world : world := world_of (NFun lambda_t_t) (Some []).



Definition default_world : world := world_of (NVal (VNum (PyInt 1))) None.

(** Two species [A] and [B], solved by the functions 1 and 2, and an
    implicit species of bound total over them. *)
Definition solved_world : world :=
  {| heap := [OSpecies
                {| name := Some "A"; mobile := true;
                   solution := VExpr (Function 1);
                   prev_solution := VNone; test_function := VNone;
                   sub_function_space := VNone;
                   post_processing_solution := VNone;
                   collapsed_function_space := VNone |};
              OSpecies
                {| name := Some "B"; mobile := true;
                   solution := VExpr (Function 2);
                   prev_solution := VNone; test_function := VNone;
                   sub_function_space := VNone;
                   post_processing_solution := VNone;
                   collapsed_function_space := VNone |};
              OImplicitSpecies
                {| imp_name := Some "sites"; n := NVal (VExpr (Function 0));
                   others := Some [Some 0%nat; Some 1%nat];
                   value_fenics := Some (VExpr (Function 0)) |}];
     calls := [] |}.

(** The same before the solver has bound the solution of [B]. *)
Definition unsolved_world : world :=
  {| heap := [OSpecies
                {| name := Some "A"; mobile := true;
                   solution := VExpr (Function 1);
                   prev_solution := VNone; test_function := VNone;
                   sub_function_space := VNone;
                   post_processing_solution := VNone;
                   collapsed_function_space := VNone |};
              OSpecies (Species_init (Some "B") true);
              OImplicitSpecies
                {| imp_name := Some "sites"; n := NVal (VExpr (Function 0));
                   others := Some [Some 0%nat; Some 1%nat];
                   value_fenics := Some (VExpr (Function 0)) |}];
     calls := [] |}.

(** The species [H], [D] and a second [H], then the surfaces 1, 2 and a
    second 1. *)
Definition registry : world :=
  {| heap := [OSpecies (Species_init (Some "H") true);
              OSpecies (Species_init (Some "D") true);
              OSpecies (Species_init (Some "H") false);
              OSurfaceSubdomain {| id := 1 |};
              OSurfaceSubdomain {| id := 2 |};
              OSurfaceSubdomain {| id := 1 |}];
     calls := [] |}.

(** A mobile species at address 0 and a trap of it at address 1. *)
Definition trap_world : world :=
  {| heap := [OSpecies (Species_init (Some "mobile") true);
              OTrap (Trap_init (Some "trapped") (Some 0%nat)
                       (VNum (PyInt 1)) (VNum (PyInt 1))
                       (VNum (PyInt 1)) (VNum (PyInt 1))
                       (NVal (VNum (PyInt 1))) 7%nat)];
     calls := [] |}.

(** ** Printing *)

(** [Species.__repr__], which [Trap] inherits. *)
Definition Species_repr (s : Species) : string :=
  "Species(" ++ py_str (name s) ++ ")".

(** [Species.__str__], which [Trap] inherits. *)
Definition Species_str (s : Species) : string :=
  py_str (name s).

(** ** Further vocabulary *)

(** The object behind [r] has a solution, and it is not [None]. *)
Definition solved (w : world) (r : ref) : Prop :=
  exists s, solution_is w r s /\ s <> VNone.

(** A computation that leaves the store and the log of calls as they
    were, whatever it answers. *)
Definition read_only {A} (m : M A) : Prop :=
  forall w, snd (m w) = w.

(** The test of [create_value_fenics] for a function of the time alone. *)
Definition time_only (f : function) : bool :=
  py_in "t" (co_varnames f) && negb (py_in "x" (co_varnames f))
  && negb (py_in "T" (co_varnames f)).

(** The keywords of the first call that [create_value_fenics] makes to a
    function [f], the time [t] being worth [tf] as a float. *)
Definition first_keywords (f : function) (mesh : Mesh) (t : value)
    (tf : number) : keywords :=
  if time_only f
  then [("t", VNum tf)]
  else ((if py_in "t" (co_varnames f) then [("t", t)] else [])
        ++ (if py_in "x" (co_varnames f)
            then [("x", VExpr (SpatialCoordinate mesh))] else []))%list.

(** The three objects that [create_species_and_reaction] makes for the
    trap [t] when the first of them gets the address [c]. *)
Definition expansion (t : Trap) (c : loc) : list obj :=
  [OSpecies (Species_init (name (trap_species t)) false);
   OImplicitSpecies (ImplicitSpecies_init (trap_n t) (Some [Some c]) None);
   OReaction
     {| reactant := [mobile_species t; Some (S c)];
        product := Some c;
        reaction_k_0 := k_0 t; reaction_E_k := E_k t;
        reaction_p_0 := p_0 t; reaction_E_p := E_p t;
        reaction_volume := volume t |}].

(** ** Further programs and stores *)

(** [def n(t): raise ValueError("no density")] *)
Definition lambda_t_raise : function :=
  {| co_varnames := ["t"];
     body := fun _ => Raise (ValueError "no density") |}.

Definition raising_world : world := world_of (NFun lambda_t_raise) (Some []).


(** [time_world] once [create_value_fenics] has bound the total at the
    time 0: the constant made for it is at address 2. *)
Definition bound_time_world : world :=
  {| heap := [OConstant {| constant_mesh := 0%nat; constant_value := PyFloat 0 |};
              OImplicitSpecies
                (bound (ImplicitSpecies_init (NFun lambda_t_t) (Some []) (Some "sites"))
                       (VExpr (Constant 2%nat)));
              OConstant {| constant_mesh := 0%nat; constant_value := PyFloat 0 |}];
     calls := [[("t", VNum (PyFloat 0))]; [("t", VNum (PyFloat 0))]] |}.

(** [solved_world] with a total that has not been bound. *)
Definition unbound_world : world :=
  {| heap := [OSpecies
                {| name := Some "A"; mobile := true;
                   solution := VExpr (Function 1);
                   prev_solution := VNone; test_function := VNone;
                   sub_function_space := VNone;
                   post_processing_solution := VNone;
                   collapsed_function_space := VNone |};
              OSpecies
                {| name := Some "B"; mobile := true;
                   solution := VExpr (Function 2);
                   prev_solution := VNone; test_function := VNone;
                   sub_function_space := VNone;
                   post_processing_solution := VNone;
                   collapsed_function_space := VNone |};
              OImplicitSpecies
                (ImplicitSpecies_init (NVal VNone)
                   (Some [Some 0%nat; Some 1%nat]) (Some "sites"))];
     calls := [] |}.

(** An implicit species, at address 1, over another implicit species. *)
Definition nested_world : world :=
  {| heap := [OImplicitSpecies
                (ImplicitSpecies_init (NVal (VNum (PyInt 1))) (Some []) (Some "inner"));
              OImplicitSpecies
                {| imp_name := Some "outer"; n := NVal (VNum (PyInt 2));
                   others := Some [Some 0%nat];
                   value_fenics := Some (VExpr (Function 0)) |}];
     calls := [] |}.







(** A species [A], solved by the scalar function 1, and an implicit species
    over it whose bound total is the spatial coordinate, a vector. *)
Definition mismatch_world : world :=
  {| heap := [OSpecies
                {| name := Some "A"; mobile := true;
                   solution := VExpr (Function 1);
                   prev_solution := VNone; test_function := VNone;
                   sub_function_space := VNone;
                   post_processing_solution := VNone;
                   collapsed_function_space := VNone |};
              OImplicitSpecies
                {| imp_name := Some "sites"; n := NVal (VExpr (SpatialCoordinate 0%nat));
                   others := Some [Some 0%nat];
                   value_fenics := Some (VExpr (SpatialCoordinate 0%nat)) |}];
     calls := [] |}.

(** ** Facts about the monad and the store *)

Lemma bind_ok {A B} (m : M A) (k : A -> M B) w a w' :
  m w = (Ok a, w') -> bind m k w = k a w'.
Proof. intros H. unfold bind. now rewrite H. Qed.

Lemma bind_raise {A B} (m : M A) (k : A -> M B) w e w' :
  m w = (Raise e, w') -> bind m k w = (Raise e, w').
Proof. intros H. unfold bind. now rewrite H. Qed.

Lemma deref_ok l o w :
  heap w !! l = Some o -> deref l w = (Ok o, w).
Proof. intros H. unfold deref. now rewrite H. Qed.

Lemma get_implicit_ok self i w :
  heap w !! self = Some (OImplicitSpecies i) -> get_implicit self w = (Ok i, w).
Proof.
  intros H. unfold get_implicit. now rewrite (bind_ok _ _ _ _ _ (deref_ok _ _ _ H)).
Qed.

Lemma get_trap_ok self t w :
  heap w !! self = Some (OTrap t) -> get_trap self w = (Ok t, w).
Proof.
  intros H. unfold get_trap. now rewrite (bind_ok _ _ _ _ _ (deref_ok _ _ _ H)).
Qed.

(** Following a reference leaves the world as it is. *)
Lemma target_world r w : snd (target r w) = w.
Proof.
  destruct r as [l|]; simpl; [|reflexivity].
  unfold deref. now destruct (heap w !! l).
Qed.

(** An object with a [solution] attribute has a [name] attribute. *)
Lemma get_solution_name r w s :
  get_solution r w = (Ok s, w) -> exists nm, get_name r w = (Ok nm, w).
Proof.
  unfold get_solution, get_name, bind.
  pose proof (target_world r w) as H.
  destruct (target r w) as [[o|e] w']; simpl in *; subst; [|discriminate].
  destruct o; try discriminate; eauto.
Qed.

(** [float(t)] only reads the store. *)
Lemma py_float_heap t w w' :
  heap w' = heap w -> py_float t w' = (fst (py_float t w), w').
Proof.
  intros H. destruct t as [|k|s|l|e]; try reflexivity.
  destruct e; try reflexivity. simpl.
  unfold bind, deref. rewrite H. destruct (heap w !! c) as [o|]; [|reflexivity].
  now destruct o.
Qed.

Lemma py_float_ok t w w' tf :
  fst (py_float t w) = Ok tf -> heap w' = heap w -> py_float t w' = (Ok tf, w').
Proof. intros H1 H2. rewrite (py_float_heap t w w' H2). now rewrite H1. Qed.

Lemma set_value_fenics_ok self i v w :
  heap w !! self = Some (OImplicitSpecies i) ->
  set_value_fenics self v w =
    (Ok tt, {| heap := <[self := OImplicitSpecies (bound i v)]> (heap w);
               calls := calls w |}).
Proof.
  intros H. unfold set_value_fenics.
  now rewrite (bind_ok _ _ _ _ _ (get_implicit_ok _ _ _ H)).
Qed.

Lemma lookup_fresh (h : list obj) o : (h ++ [o])%list !! length h = Some o.
Proof. rewrite lookup_app_r by lia. now rewrite Nat.sub_diag. Qed.

Lemma lookup_old (h : list obj) l o o' :
  h !! l = Some o -> (h ++ [o'])%list !! l = Some o.
Proof. intros H. rewrite lookup_app_l; [exact H|]. eapply lookup_lt_Some, H. Qed.

(** ** The surface query *)

(** C1, as the code has it.  Whatever the geometric service is,
    [locate_boundary_facet_indices] asks it for the boundary entities of
    dimension [fdim] under the accept-all marker and answers the first
    entry of the array it reports: one index, not the array.  It is never
    the array itself, and an empty report is an [IndexError]. *)
Theorem locate_boundary_facet_indices_first
    (service : Mesh -> Z -> marker -> list Z) self mesh fdim :
  locate_boundary_facet_indices service self mesh fdim =
    match service mesh fdim accept_all with
    | [] => Raise IndexError
    | i :: _ => Ok (Scalar i)
    end
  /\ forall l, locate_boundary_facet_indices service self mesh fdim <> Ok (Array l).
Proof.
  unfold locate_boundary_facet_indices, first_entry.
  split; [reflexivity|].
  intros l. now destruct (service mesh fdim accept_all).
Qed.

(** C1 fails as stated.  On the interval mesh the service reports the
    facets 0 and 10, in this order, and the query on the surface of id 3
    answers the index 0 alone, which is not the reported sequence. *)
Lemma locate_boundary_facet_indices_not_the_sequence :
  interval_service 0%nat 0 accept_all = [0; 10] /\
  locate_boundary_facet_indices interval_service {| id := 3 |} 0%nat 0
    = Ok (Scalar 0) /\
  locate_boundary_facet_indices interval_service {| id := 3 |} 0%nat 0
    <> Ok (Array (interval_service 0%nat 0 accept_all)).
Proof.
  split; [reflexivity|]. split; [reflexivity|]. discriminate.
Qed.

(** ** Binding and refreshing the total of an implicit species *)

(** C2 fails as stated.  [lambda t: [1, 2]] has [t] as its only name and
    returns a list; binding it at the time [0.0] raises a [ValueError],
    which is not a [TypeError]. *)
Lemma create_value_fenics_list_is_value_error :
  co_varnames lambda_t_list = ["t"] /\
  body lambda_t_list [("t", VNum (PyFloat 0))] = Ok (VList [PyInt 1; PyInt 2]) /\
  fst (create_value_fenics 1%nat 0%nat (VExpr (Constant 0%nat)) list_world)
    = Raise (ValueError
        "self.value should return a float or an int, not <class 'list'> ") /\
  fst (create_value_fenics 1%nat 0%nat (VExpr (Constant 0%nat)) list_world)
    <> Raise TypeError.
Proof.
  split; [reflexivity|]. split; [reflexivity|]. split; [reflexivity|].
  discriminate.
Qed.

(** C2, as the code has it.  For every function [n] whose names hold [t]
    and neither [x] nor [T], and which returns something that is not a
    number at the current time, [create_value_fenics] raises a
    [ValueError] whose message gives the type returned.  It is raised by
    the bind itself: the store is as it was, so [value_fenics] is not
    assigned, and the function has been called twice with [t=float(t)],
    for the test and for the message, with nothing run after the error. *)
Theorem create_value_fenics_time_not_number w self i f mesh t tf v :
  heap w !! self = Some (OImplicitSpecies i) ->
  n i = NFun f ->
  py_in "t" (co_varnames f) = true ->
  py_in "x" (co_varnames f) = false ->
  py_in "T" (co_varnames f) = false ->
  fst (py_float t w) = Ok tf ->
  body f [("t", VNum tf)] = Ok v ->
  is_number v = false ->
  create_value_fenics self mesh t w =
    (Raise (ValueError (not_a_number_message v)),
     {| heap := heap w;
        calls := (calls w ++ [[("t", VNum tf)]; [("t", VNum tf)]])%list |}).
Proof.
  intros Hself Hn Ht Hx HT Hf Hb Hv.
  unfold create_value_fenics.
  rewrite (bind_ok _ _ _ _ _ (get_implicit_ok _ _ _ Hself)).
  rewrite Hn, Ht, Hx, HT. cbn [andb negb].
  rewrite (bind_ok _ _ _ _ _ (py_float_ok t w w tf Hf eq_refl)).
  unfold call at 1. unfold bind at 1. rewrite Hb, Hv.
  erewrite bind_ok; [|apply (py_float_ok t w); [exact Hf|reflexivity]].
  unfold call, bind, raise. simpl. rewrite Hb.
  rewrite <- app_assoc. reflexivity.
Qed.

Lemma create_value_fenics_time_not_number_witness :
  fst (py_float (VExpr (Constant 0%nat)) list_world) = Ok (PyFloat 0) /\
  is_number (VList [PyInt 1; PyInt 2]) = false /\
  create_value_fenics 1%nat 0%nat (VExpr (Constant 0%nat)) list_world =
    (Raise (ValueError (not_a_number_message (VList [PyInt 1; PyInt 2]))),
     {| heap := heap list_world;
        calls := [[("t", VNum (PyFloat 0))]; [("t", VNum (PyFloat 0))]] |}).
Proof.
  split; [reflexivity|]. split; [reflexivity|].
  apply (create_value_fenics_time_not_number list_world 1%nat
           (ImplicitSpecies_init (NFun lambda_t_list) (Some []) (Some "sites"))
           lambda_t_list 0%nat (VExpr (Constant 0%nat)) (PyFloat 0)
           (VList [PyInt 1; PyInt 2])); reflexivity.
Defined.









(** ** Reading the concentration of an implicit species *)

Lemma check_solution_solved nm o w s :
  solution_is w o s -> s <> VNone -> check_solution nm o w = (Ok tt, w).
Proof.
  intros Hs Hne. unfold check_solution.
  rewrite (bind_ok _ _ _ _ _ Hs). now destruct s.
Qed.

Lemma check_solution_unsolved nm o w onm :
  solution_is w o VNone -> get_name o w = (Ok onm, w) ->
  check_solution nm o w = (Raise (ValueError (no_solution_message nm onm)), w).
Proof.
  intros Hs Hn. unfold check_solution.
  rewrite (bind_ok _ _ _ _ _ Hs). now rewrite (bind_ok _ _ _ _ _ Hn).
Qed.

(** The scan of the dependencies either passes them all or stops at the
    first one without a solution. *)
Lemma check_scan nm os w :
  Forall (fun o => exists s, solution_is w o s) os ->
  (Forall (fun o => exists s, solution_is w o s /\ s <> VNone) os /\
   forM (check_solution nm) os w = (Ok tt, w))
  \/
  (exists pre o post onm,
     os = (pre ++ o :: post)%list /\
     Forall (fun o => exists s, solution_is w o s /\ s <> VNone) pre /\
     solution_is w o VNone /\
     get_name o w = (Ok onm, w) /\
     forM (check_solution nm) os w
       = (Raise (ValueError (no_solution_message nm onm)), w)).
Proof.
  induction 1 as [|o os [s Hs] _ IH].
  - left. split; [constructor|reflexivity].
  - destruct (get_solution_name _ _ _ Hs) as [onm Honm].
    assert (Hcase : s = VNone \/ s <> VNone)
      by (destruct s; (now left) || (right; discriminate)).
    destruct Hcase as [->|Hne].
    + right. exists [], o, os, onm. repeat split; try assumption; [constructor|].
      simpl. now rewrite (bind_raise _ _ _ _ _ (check_solution_unsolved nm _ _ _ Hs Honm)).
    + destruct IH as [[Hall Hrun]|(pre & o' & post & onm' & -> & Hpre & Hs' & Hn' & Hrun)].
      * left. split; [constructor; eauto|].
        simpl. now rewrite (bind_ok _ _ _ _ _ (check_solution_solved nm _ _ _ Hs Hne)).
      * right. exists (o :: pre), o', post, onm'.
        repeat split; try assumption; [constructor; eauto|].
        simpl forM.
        now rewrite (bind_ok _ _ _ _ _ (check_solution_solved nm _ _ _ Hs Hne)).
Qed.

Lemma guarded_forM {A} (f : A -> M unit) (l : list A) w :
  (if (0 <? length l)%nat then forM f l else ret tt) w = forM f l w.
Proof. now destruct l. Qed.

Lemma mapM_get_solution os sols w :
  Forall2 (solution_is w) os sols -> mapM get_solution os w = (Ok sols, w).
Proof.
  induction 1 as [|o s os sols Hs _ IH]; [reflexivity|].
  simpl. rewrite (bind_ok _ _ _ _ _ Hs). now rewrite (bind_ok _ _ _ _ _ IH).
Qed.

Lemma solutions_exist os w :
  Forall (fun o => exists s, solution_is w o s) os ->
  exists sols, Forall2 (solution_is w) os sols.
Proof.
  induction 1 as [|o os [s Hs] _ [sols IH]].
  - exists []. constructor.
  - exists (s :: sols). now constructor.
Qed.

Lemma ufl_sum_raise a b e : ufl_sum a b = Raise e -> e = ValueError different_shapes.
Proof. unfold ufl_sum. destruct (rank a =? rank b)%nat; congruence. Qed.

Lemma ufl_diff_raise a b e : ufl_diff a b = Raise e -> e = ValueError different_shapes.
Proof. unfold ufl_diff. destruct (rank a =? rank b)%nat; congruence. Qed.

(** The operators raise a [TypeError], or the [ValueError] of the runtime
    for fields of different shapes. *)
Lemma py_add_raise a b e :
  py_add a b = Raise e -> e = TypeError \/ e = ValueError different_shapes.
Proof.
  destruct a as [|x|s|l|a], b as [|y|s'|l'|b]; simpl;
    try (intros [= <-]; now left); try discriminate.
  - destruct (is_zero x); [discriminate|]. intros H. right. eapply ufl_sum_raise, H.
  - intros H. right. eapply ufl_sum_raise, H.
  - intros H. right. eapply ufl_sum_raise, H.
Qed.

Lemma py_sub_raise a b e :
  py_sub a b = Raise e -> e = TypeError \/ e = ValueError different_shapes.
Proof.
  destruct a as [|x|s|l|a], b as [|y|s'|l'|b]; simpl;
    try (intros [= <-]; now left); try discriminate;
    intros H; right; eapply ufl_diff_raise, H.
Qed.

Lemma py_sum_from_raise l : forall acc e,
  py_sum_from acc l = Raise e -> e = TypeError \/ e = ValueError different_shapes.
Proof.
  induction l as [|v l IH]; intros acc e; simpl; [discriminate|].
  destruct (py_add acc v) eqn:E; [apply IH|].
  intros [= <-]. eapply py_add_raise, E.
Qed.

(** Past the scan, the only [ValueError] that [concentration] can raise is
    the one of the runtime for fields of different shapes. *)
Lemma difference_value_error i os w msg :
  Forall (fun o => exists s, solution_is w o s) os ->
  fst ((v <- get_value_fenics i ;;
        sols <- mapM get_solution os ;;
        total <- lift (py_sum sols) ;;
        lift (py_sub v total)) w) = Raise (ValueError msg) ->
  msg = different_shapes.
Proof.
  intros Hos. destruct (solutions_exist _ _ Hos) as [sols Hsols].
  unfold get_value_fenics. destruct (value_fenics i) as [v|]; [|discriminate].
  unfold bind at 1. cbn [ret].
  rewrite (bind_ok _ _ _ _ _ (mapM_get_solution _ _ _ Hsols)).
  unfold bind, lift. destruct (py_sum sols) as [tot|e] eqn:E.
  - destruct (py_sub v tot) as [r|e] eqn:E'; [discriminate|].
    simpl. destruct (py_sub_raise _ _ _ E') as [->| ->]; congruence.
  - simpl. destruct (py_sum_from_raise _ _ _ E) as [->| ->]; congruence.
Qed.

Lemma solution_is_functional w o s s' :
  solution_is w o s -> solution_is w o s' -> s = s'.
Proof. unfold solution_is. congruence. Qed.

Lemma concentration_scan w self i os :
  heap w !! self = Some (OImplicitSpecies i) ->
  others i = Some os ->
  concentration self w =
    match forM (check_solution (imp_name i)) os w with
    | (Ok _, w') =>
        (v <- get_value_fenics i ;;
         sols <- mapM get_solution os ;;
         total <- lift (py_sum sols) ;;
         lift (py_sub v total)) w'
    | (Raise e, w') => (Raise e, w')
    end.
Proof.
  intros Hself Hos. unfold concentration.
  rewrite (bind_ok _ _ _ _ _ (get_implicit_ok _ _ _ Hself)). rewrite Hos.
  unfold bind at 1. now rewrite guarded_forM.
Qed.

(** C6 fails as stated.  With its one dependency solved, the implicit
    species whose bound total is a vector still gets a [ValueError] from
    the read of its concentration: the one of the runtime for the
    difference of fields of different shapes. *)
Lemma concentration_value_error_all_solved :
  Forall (fun o => exists s, solution_is mismatch_world o s) [Some 0%nat] /\
  ~ Exists (fun o => solution_is mismatch_world o VNone) [Some 0%nat] /\
  concentration 1%nat mismatch_world =
    (Raise (ValueError "Can't add expressions with different shapes."),
     mismatch_world).
Proof.
  split; [repeat constructor; eexists; reflexivity|].
  split; [|reflexivity].
  intros H. apply Exists_exists in H as (o & Hin & Hs).
  apply list_elem_of_singleton in Hin as ->. discriminate Hs.
Qed.

(** C6, as the code has it.  For every implicit species whose [others] is
    a list of objects that have a [solution] attribute (the list may be
    empty).  If some entry has no solution ([None]), reading
    [concentration] raises a [ValueError] whose message names the implicit
    species and the first such entry.  Conversely, when the read raises a
    [ValueError], either some entry has no solution, or all are solved and
    the error is the one of the runtime for fields of different shapes,
    raised by the sum or the difference. *)
Theorem concentration_value_error w self i os :
  heap w !! self = Some (OImplicitSpecies i) ->
  others i = Some os ->
  Forall (fun o => exists s, solution_is w o s) os ->
  (Exists (fun o => solution_is w o VNone) os ->
   exists pre o post onm,
     os = (pre ++ o :: post)%list /\
     Forall (fun o => exists s, solution_is w o s /\ s <> VNone) pre /\
     solution_is w o VNone /\
     get_name o w = (Ok onm, w) /\
     concentration self w =
       (Raise (ValueError
          ("Cannot compute concentration of "
           ++ match imp_name i with Some s => s | None => "None" end
           ++ " because "
           ++ match onm with Some s => s | None => "None" end
           ++ " has no solution")), w))
  /\
  (forall msg,
     fst (concentration self w) = Raise (ValueError msg) ->
     Exists (fun o => solution_is w o VNone) os \/
     (Forall (fun o => exists s, solution_is w o s /\ s <> VNone) os /\
      msg = "Can't add expressions with different shapes.")).
Proof.
  intros Hself Hos Hsp.
  rewrite (concentration_scan _ _ _ _ Hself Hos).
  destruct (check_scan (imp_name i) os w Hsp)
    as [[Hall Hscan]|(pre & o & post & onm & Heq & Hpre & Hs & Hn & Hscan)];
    rewrite Hscan.
  - split.
    + intros Hex. exfalso. apply Exists_exists in Hex as (o & Hin & Hs).
      rewrite Forall_forall in Hall. destruct (Hall o Hin) as (s & Hs' & Hne).
      apply Hne. eapply solution_is_functional; eassumption.
    + intros msg Hmsg. right. split; [exact Hall|].
      exact (difference_value_error i os w msg Hsp Hmsg).
  - split.
    + intros _. exists pre, o, post, onm. repeat split; assumption.
    + intros msg _. left. subst os. apply Exists_app. right. now constructor.
Qed.

Lemma concentration_value_error_witness :
  Forall (fun o => exists s, solution_is unsolved_world o s) [Some 0%nat; Some 1%nat] /\
  Exists (fun o => solution_is unsolved_world o VNone) [Some 0%nat; Some 1%nat] /\
  exists pre o post onm,
    [Some 0%nat; Some 1%nat] = (pre ++ o :: post)%list /\
    Forall (fun o => exists s, solution_is unsolved_world o s /\ s <> VNone) pre /\
    solution_is unsolved_world o VNone /\
    get_name o unsolved_world = (Ok onm, unsolved_world) /\
    concentration 2%nat unsolved_world =
      (Raise (ValueError
         ("Cannot compute concentration of sites because "
          ++ match onm with Some s => s | None => "None" end
          ++ " has no solution")), unsolved_world).
Proof.
  assert (H : Forall (fun o => exists s, solution_is unsolved_world o s)
                [Some 0%nat; Some 1%nat])
    by (repeat constructor; eexists; reflexivity).
  assert (Hex : Exists (fun o => solution_is unsolved_world o VNone)
                  [Some 0%nat; Some 1%nat])
    by (apply Exists_cons_tl, Exists_cons_hd; reflexivity).
  split; [exact H|]. split; [exact Hex|].
  exact (proj1 (concentration_value_error unsolved_world 2%nat _ _
                  eq_refl eq_refl H) Hex).
Defined.

Lemma py_sum_from_exprs l : forall a,
  Forall (fun s => rank s = rank a) l ->
  py_sum_from (VExpr a) (map VExpr l) = Ok (VExpr (fold_left Sum l a)) /\
  rank (fold_left Sum l a) = rank a.
Proof.
  induction l as [|e l IH]; intros a Hl; simpl; [now split|].
  apply Forall_cons in Hl as [He Hl].
  unfold ufl_sum. rewrite He, Nat.eqb_refl.
  destruct (IH (Sum a e) Hl) as [H1 H2].
  split; [exact H1|]. now rewrite H2.
Qed.

(** The difference that [concentration] makes from field operands of one
    shape. *)
Lemma difference_of_exprs V l :
  Forall (fun s => rank s = rank V) l ->
  (l = [] -> rank V = 0%nat) ->
  exists c,
    match py_sum (map VExpr l) with
    | Ok tot => py_sub (VExpr V) tot
    | Raise e => Raise e
    end = Ok (VExpr c) /\
    rank c = rank V /\
    c = Diff V (match l with
                | [] => Lit (PyInt 0)
                | s :: l' => fold_left Sum l' s
                end).
Proof.
  intros Hl Hnil. destruct l as [|s l].
  - exists (Diff V (Lit (PyInt 0))). simpl. unfold ufl_diff.
    rewrite (Hnil eq_refl). now repeat split.
  - apply Forall_cons in Hl as [Hs Hl].
    exists (Diff V (fold_left Sum l s)).
    unfold py_sum. simpl.
    destruct (py_sum_from_exprs l s) as [H1 H2];
      [eapply Forall_impl; [exact Hl|]; intros; congruence|].
    rewrite H1. simpl. unfold ufl_diff. rewrite H2, Hs, Nat.eqb_refl.
    now repeat split.
Qed.

Lemma denote_fold_left_Sum h rho l : forall a,
  (denote h rho (fold_left Sum l a)
   == denote h rho a + fold_right (fun s acc => denote h rho s + acc) 0 l)%Q.
Proof.
  induction l as [|e l IH]; intros a; simpl.
  - ring.
  - rewrite IH. simpl. ring.
Qed.

(** C7 fails as stated.  The bound total is the spatial coordinate and the
    one dependency has a bound solution, a scalar function: reading the
    concentration returns no difference, it raises the [ValueError] of the
    runtime for fields of different shapes. *)
Lemma concentration_value_shapes_differ :
  heap mismatch_world !! 1%nat =
    Some (OImplicitSpecies
            {| imp_name := Some "sites"; n := NVal (VExpr (SpatialCoordinate 0%nat));
               others := Some [Some 0%nat];
               value_fenics := Some (VExpr (SpatialCoordinate 0%nat)) |}) /\
  solution_is mismatch_world (Some 0%nat) (VExpr (Function 1)) /\
  (forall v, fst (concentration 1%nat mismatch_world) <> Ok v) /\
  fst (concentration 1%nat mismatch_world)
    = Raise (ValueError "Can't add expressions with different shapes.").
Proof.
  split; [reflexivity|]. split; [reflexivity|].
  split; [discriminate|reflexivity].
Qed.

(** C7, as the code has it.  For every implicit species whose
    [value_fenics] is the field [V] and whose [others] all have as solution
    a field of the shape of [V] on the mesh of [V] ([V] being a scalar when
    [others] is empty), reading [concentration] answers a field of that
    shape which is worth, at every point, what [V] is worth minus the sum
    of what the solutions are worth. *)
Theorem concentration_value w self i V os sols m :
  heap w !! self = Some (OImplicitSpecies i) ->
  others i = Some os ->
  value_fenics i = Some (VExpr V) ->
  Forall2 (fun o s => solution_is w o (VExpr s)) os sols ->
  Forall (fun s => on_mesh m s = true) (V :: sols) ->
  Forall (fun s => rank s = rank V) sols ->
  (sols = [] -> rank V = 0%nat) ->
  exists c,
    concentration self w = (Ok (VExpr c), w) /\
    rank c = rank V /\
    forall rho,
      (denote (heap w) rho c
       == denote (heap w) rho V
          - fold_right (fun s acc => denote (heap w) rho s + acc) 0 sols)%Q.
Proof.
  intros Hself Hos HV Hsols _ Hrank Hnil.
  destruct (difference_of_exprs V sols Hrank Hnil) as (c & Hd & Hc & Hform).
  exists c. split; [|split; [exact Hc|]].
  - rewrite (concentration_scan _ _ _ _ Hself Hos).
    assert (Hsp : Forall (fun o => exists s, solution_is w o s) os).
    { clear -Hsols. induction Hsols; constructor; eauto. }
    destruct (check_scan (imp_name i) os w Hsp)
      as [[_ Hscan]|(pre & o & post & onm & Heq & _ & Hs & _ & _)].
    + rewrite Hscan. unfold get_value_fenics. rewrite HV.
      unfold bind at 1. cbn [ret].
      assert (Hmap : Forall2 (solution_is w) os (map VExpr sols))
        by (clear -Hsols; induction Hsols; constructor; auto).
      rewrite (bind_ok _ _ _ _ _ (mapM_get_solution _ _ _ Hmap)).
      unfold bind, lift.
      destruct (py_sum (map VExpr sols)); [now rewrite Hd|discriminate].
    + exfalso. subst os. apply Forall2_app_inv_l in Hsols
        as (sols1 & sols2 & _ & Hsols & _).
      inversion Hsols as [|? s ? ? Hs' _]; subst.
      pose proof (solution_is_functional _ _ _ _ Hs Hs'). discriminate.
  - intros rho. subst c. destruct sols as [|s l]; simpl.
    + ring.
    + rewrite denote_fold_left_Sum. ring.
Qed.

Lemma concentration_value_witness :
  Forall2 (fun o s => solution_is solved_world o (VExpr s))
    [Some 0%nat; Some 1%nat] [Function 1; Function 2] /\
  exists c,
    concentration 2%nat solved_world = (Ok (VExpr c), solved_world) /\
    rank c = 0%nat /\
    forall rho,
      (denote (heap solved_world) rho c
       == function_at rho 0%nat
          - (function_at rho 1%nat + (function_at rho 2%nat + 0)))%Q.
Proof.
  assert (H : Forall2 (fun o s => solution_is solved_world o (VExpr s))
                [Some 0%nat; Some 1%nat] [Function 1; Function 2])
    by (repeat constructor).
  split; [exact H|].
  refine (concentration_value solved_world 2%nat _ (Function 0) _ _ 0%nat
            eq_refl eq_refl eq_refl H _ _ _).
  - repeat constructor.
  - repeat constructor.
  - discriminate.
Defined.

(** C10.  For every implicit species whose [others] is the default
    [None], reading [concentration] raises a [TypeError] (from [len(None)])
    and not the [ValueError] of the unresolved dependency.  Whenever the
    read raises a [ValueError], [others] is a list; the list is not empty,
    unless the error is the one of the runtime for fields of different
    shapes, so that the error of the unresolved dependency is raised for a
    non-empty list only. *)
Theorem concentration_without_others w self i :
  heap w !! self = Some (OImplicitSpecies i) ->
  others i = None ->
  concentration self w = (Raise TypeError, w)
  /\
  forall w' self' msg,
    fst (concentration self' w') = Raise (ValueError msg) ->
    exists i' os,
      heap w' !! self' = Some (OImplicitSpecies i') /\
      others i' = Some os /\
      (os <> [] \/ msg = "Can't add expressions with different shapes.").
Proof.
  intros Hself Hos. split.
  - unfold concentration.
    rewrite (bind_ok _ _ _ _ _ (get_implicit_ok _ _ _ Hself)). now rewrite Hos.
  - clear w self i Hself Hos. intros w self msg.
    destruct (heap w !! self) as [o|] eqn:Hself.
    + destruct o as [s|t|i|r|c|s];
        try (unfold concentration, get_implicit, bind, deref;
             rewrite Hself; discriminate).
      destruct (others i) as [os|] eqn:Hos.
      * destruct os as [|o os].
        -- rewrite (concentration_scan _ _ _ _ Hself Hos). simpl forM. cbn [ret].
           intros H. exists i, []. repeat split; [assumption|]. right.
           exact (difference_value_error i [] w msg (List.Forall_nil _) H).
        -- intros _. exists i, (o :: os).
           repeat split; [assumption|]. left. discriminate.
      * unfold concentration.
        rewrite (bind_ok _ _ _ _ _ (get_implicit_ok _ _ _ Hself)). rewrite Hos.
        discriminate.
    + unfold concentration, get_implicit, bind, deref. rewrite Hself. discriminate.
Qed.

Lemma concentration_without_others_witness :
  others (ImplicitSpecies_init (NVal (VNum (PyInt 1))) None (Some "sites")) = None /\
  concentration 1%nat default_world = (Raise TypeError, default_world) /\
  forall w' self' msg,
    fst (concentration self' w') = Raise (ValueError msg) ->
    exists i' os,
      heap w' !! self' = Some (OImplicitSpecies i') /\
      others i' = Some os /\
      (os <> [] \/ msg = "Can't add expressions with different shapes.").
Proof.
  split; [reflexivity|].
  exact (concentration_without_others default_world 1%nat _ eq_refl eq_refl).
Defined.

(** ** Expanding a trap *)

Lemma insert_fresh (h : list obj) l o o' :
  (l < length h)%nat ->
  <[l := o]> (h ++ [o'])%list = (<[l := o]> h ++ [o'])%list.
Proof. intros H. now rewrite insert_app_l. Qed.

Ltac heap_length :=
  repeat (rewrite length_insert || rewrite length_app); cbn [length].

(** C8.  For every trap, [create_species_and_reaction] returns nothing and
    makes three new objects: a species with the name of the trap,
    [mobile=False] and no solution, which [trapped_concentration] then
    refers to; an implicit species without name, with the [n] of the trap
    and [others] the one-element list of that species, which
    [empty_trap_sites] refers to; and a reaction with
    [reactant=[mobile_species, empty_trap_sites]],
    [product=trapped_concentration], the four kinetic parameters and the
    volume of the trap, which [reaction] refers to.  Nothing else in the
    store changes and no user function is called. *)
Theorem create_species_and_reaction_expands w self t :
  heap w !! self = Some (OTrap t) ->
  exists w1,
    create_species_and_reaction self w = (Ok tt, w1) /\
    heap w1 =
      (<[self := OTrap
             {| trap_species := trap_species t;
                mobile_species := mobile_species t;
                k_0 := k_0 t; E_k := E_k t; p_0 := p_0 t; E_p := E_p t;
                trap_n := trap_n t; volume := volume t;
                trapped_concentration := Some (length (heap w));
                empty_trap_sites := Some (S (length (heap w)));
                reaction := Some (S (S (length (heap w)))) |}]> (heap w)
       ++ [OSpecies
             {| name := name (trap_species t); mobile := false;
                solution := VNone; prev_solution := VNone;
                test_function := VNone; sub_function_space := VNone;
                post_processing_solution := VNone;
                collapsed_function_space := VNone |};
           OImplicitSpecies
             {| imp_name := None; n := trap_n t;
                others := Some [Some (length (heap w))];
                value_fenics := None |};
           OReaction
             {| reactant := [mobile_species t; Some (S (length (heap w)))];
                product := Some (length (heap w));
                reaction_k_0 := k_0 t; reaction_E_k := E_k t;
                reaction_p_0 := p_0 t; reaction_E_p := E_p t;
                reaction_volume := volume t |}])%list /\
    calls w1 = calls w /\
    heap w !! length (heap w) = None /\
    heap w1 !! self =
      Some (OTrap
             {| trap_species := trap_species t;
                mobile_species := mobile_species t;
                k_0 := k_0 t; E_k := E_k t; p_0 := p_0 t; E_p := E_p t;
                trap_n := trap_n t; volume := volume t;
                trapped_concentration := Some (length (heap w));
                empty_trap_sites := Some (S (length (heap w)));
                reaction := Some (S (S (length (heap w)))) |}) /\
    heap w1 !! length (heap w) =
      Some (OSpecies
             {| name := name (trap_species t); mobile := false;
                solution := VNone; prev_solution := VNone;
                test_function := VNone; sub_function_space := VNone;
                post_processing_solution := VNone;
                collapsed_function_space := VNone |}) /\
    heap w1 !! S (length (heap w)) =
      Some (OImplicitSpecies
             {| imp_name := None; n := trap_n t;
                others := Some [Some (length (heap w))];
                value_fenics := None |}) /\
    heap w1 !! S (S (length (heap w))) =
      Some (OReaction
             {| reactant := [mobile_species t; Some (S (length (heap w)))];
                product := Some (length (heap w));
                reaction_k_0 := k_0 t; reaction_E_k := E_k t;
                reaction_p_0 := p_0 t; reaction_E_p := E_p t;
                reaction_volume := volume t |}).
Proof.
  intros Hself.
  assert (Hlt : (self < length (heap w))%nat) by (eapply lookup_lt_Some, Hself).
  set (c := length (heap w)) in *.
  assert (Hrun : create_species_and_reaction self w = (Ok tt,
    {| heap := (<[self := OTrap (expanded t c (S c) (S (S c)))]> (heap w)
       ++ [OSpecies (Species_init (name (trap_species t)) false);
           OImplicitSpecies (ImplicitSpecies_init (trap_n t) (Some [Some c]) None);
           OReaction
             {| reactant := [mobile_species t; Some (S c)];
                product := Some c;
                reaction_k_0 := k_0 t; reaction_E_k := E_k t;
                reaction_p_0 := p_0 t; reaction_E_p := E_p t;
                reaction_volume := volume t |}])%list;
       calls := calls w |})).
  { unfold create_species_and_reaction.
    rewrite (bind_ok _ _ _ _ _ (get_trap_ok _ _ _ Hself)).
    unfold Species_new, new. unfold bind at 1. fold c.
    unfold set_trapped_concentration. unfold bind at 1.
    erewrite bind_ok; [|apply get_trap_ok; cbn [heap]; apply lookup_old, Hself].
    unfold store. cbn [heap calls].
    erewrite bind_ok; [|apply get_trap_ok; cbn [heap];
      apply list_lookup_insert_eq; heap_length; lia].
    cbn [trap_n trapped_concentration].
    unfold ImplicitSpecies_new, new. unfold bind at 1. cbn [heap calls].
    heap_length. fold c.
    replace (c + 1)%nat with (S c) by lia.
    unfold set_empty_trap_sites. unfold bind at 1.
    erewrite bind_ok; [|apply get_trap_ok; cbn [heap]; apply lookup_old;
      apply list_lookup_insert_eq; heap_length; lia].
    unfold store.
    cbn [heap calls trap_species mobile_species k_0 E_k p_0 E_p trap_n volume
         trapped_concentration empty_trap_sites reaction].
    erewrite bind_ok; [|apply get_trap_ok; cbn [heap];
      apply list_lookup_insert_eq; heap_length; lia].
    cbn [trap_species mobile_species k_0 E_k p_0 E_p trap_n volume
         trapped_concentration empty_trap_sites reaction].
    unfold Reaction_new, new. unfold bind at 1. cbn [heap calls].
    heap_length. fold c.
    replace (c + 1 + 1)%nat with (S (S c)) by lia.
    unfold set_reaction.
    erewrite bind_ok; [|apply get_trap_ok; cbn [heap]; apply lookup_old;
      apply list_lookup_insert_eq; heap_length; lia].
    unfold store. cbn [heap calls trap_species mobile_species k_0 E_k p_0 E_p
      trap_n volume trapped_concentration empty_trap_sites reaction].
    f_equal. f_equal. unfold expanded.
    repeat (rewrite insert_fresh by (heap_length; lia)).
    rewrite !list_insert_insert_eq.
    rewrite <- !app_assoc. reflexivity. }
  eexists. split; [exact Hrun|]. cbn [heap calls].
  split; [reflexivity|]. split; [reflexivity|].
  split; [apply lookup_ge_None; unfold c; lia|].
  split.
  { rewrite lookup_app_l by (rewrite length_insert; lia).
    now apply list_lookup_insert_eq. }
  assert (Hlen : length (<[self := OTrap (expanded t c (S c) (S (S c)))]> (heap w)) = c)
    by (now rewrite length_insert).
  split; [|split].
  - rewrite lookup_app_r by lia. rewrite Hlen, Nat.sub_diag. reflexivity.
  - rewrite lookup_app_r by lia. rewrite Hlen.
    replace (S c - c)%nat with 1%nat by lia. reflexivity.
  - rewrite lookup_app_r by lia. rewrite Hlen.
    replace (S (S c) - c)%nat with 2%nat by lia. reflexivity.
Qed.

Lemma create_species_and_reaction_expands_witness :
  exists w1,
    create_species_and_reaction 1%nat trap_world = (Ok tt, w1) /\
    heap w1 !! 1%nat =
      Some (OTrap
              {| trap_species :=
                   {| name := Some "trapped"; mobile := true;
                      solution := VNone; prev_solution := VNone;
                      test_function := VNone; sub_function_space := VNone;
                      post_processing_solution := VNone;
                      collapsed_function_space := VNone |};
                 mobile_species := Some 0%nat;
                 k_0 := VNum (PyInt 1); E_k := VNum (PyInt 1);
                 p_0 := VNum (PyInt 1); E_p := VNum (PyInt 1);
                 trap_n := NVal (VNum (PyInt 1)); volume := 7%nat;
                 trapped_concentration := Some 2%nat;
                 empty_trap_sites := Some 3%nat;
                 reaction := Some 4%nat |}) /\
    heap w1 !! 2%nat =
      Some (OSpecies
              {| name := Some "trapped"; mobile := false;
                 solution := VNone; prev_solution := VNone;
                 test_function := VNone; sub_function_space := VNone;
                 post_processing_solution := VNone;
                 collapsed_function_space := VNone |}) /\
    heap w1 !! 3%nat =
      Some (OImplicitSpecies
              {| imp_name := None; n := NVal (VNum (PyInt 1));
                 others := Some [Some 2%nat]; value_fenics := None |}) /\
    heap w1 !! 4%nat =
      Some (OReaction
              {| reactant := [Some 0%nat; Some 3%nat];
                 product := Some 2%nat;
                 reaction_k_0 := VNum (PyInt 1); reaction_E_k := VNum (PyInt 1);
                 reaction_p_0 := VNum (PyInt 1); reaction_E_p := VNum (PyInt 1);
                 reaction_volume := 7%nat |}).
Proof.
  destruct (create_species_and_reaction_expands trap_world 1%nat _ eq_refl)
    as (w1 & Hrun & _ & _ & _ & H1 & H2 & H3 & H4).
  exists w1. repeat split; assumption.
Defined.

(** ** Looking up a species by name and a surface by id *)

Lemma find_species_scan w name species :
  Forall (fun r => exists nm, get_name r w = (Ok nm, w)) species ->
  (exists i r,
     species !! i = Some r /\ named w name r /\
     (forall j r', (j < i)%nat -> species !! j = Some r' -> ~ named w name r') /\
     find_species_from_name name species w = (Ok r, w))
  \/
  (Forall (fun r => ~ named w name r) species /\
   find_species_from_name name species w
     = (Raise (ValueError (species_not_found name)), w)).
Proof.
  induction 1 as [|r rs [nm Hnm] _ IH].
  - right. split; [constructor|reflexivity].
  - simpl. rewrite (bind_ok _ _ _ _ _ Hnm).
    destruct (decide (nm = Some name)) as [->|Hne].
    + left. exists 0%nat, r. repeat split; [exact Hnm|intros; lia].
    + assert (Hr : ~ named w name r) by (unfold named; congruence).
      destruct IH as [(i & r0 & Hi & Hn & Hmin & Hrun)|[Hall Hrun]].
      * left. exists (S i), r0. repeat split; try assumption.
        intros [|j] r' Hj Hl; simpl in Hl.
        -- now injection Hl as <-.
        -- apply (Hmin j); [lia|exact Hl].
      * right. split; [now constructor|exact Hrun].
Qed.

Lemma find_surface_scan w k surfaces :
  Forall (fun r => exists j, get_id r w = (Ok j, w)) surfaces ->
  (exists i r,
     surfaces !! i = Some r /\ has_id w k r /\
     (forall j r', (j < i)%nat -> surfaces !! j = Some r' -> ~ has_id w k r') /\
     find_surface_from_id k surfaces w = (Ok r, w))
  \/
  (Forall (fun r => ~ has_id w k r) surfaces /\
   find_surface_from_id k surfaces w
     = (Raise (ValueError (id_not_found k)), w)).
Proof.
  induction 1 as [|r rs [k' Hk] _ IH].
  - right. split; [constructor|reflexivity].
  - simpl. rewrite (bind_ok _ _ _ _ _ Hk).
    destruct (decide (k' = k)) as [->|Hne].
    + left. exists 0%nat, r. repeat split; [exact Hk|intros; lia].
    + assert (Hr : ~ has_id w k r) by (unfold has_id; congruence).
      destruct IH as [(i & r0 & Hi & Hn & Hmin & Hrun)|[Hall Hrun]].
      * left. exists (S i), r0. repeat split; try assumption.
        intros [|j] r' Hj Hl; simpl in Hl.
        -- now injection Hl as <-.
        -- apply (Hmin j); [lia|exact Hl].
      * right. split; [now constructor|exact Hrun].
Qed.

(** C9.  For every name and list of named objects, and every id and list
    of objects with an id: the lookup scans the list in order and returns
    the first entry whose name (or id) equals the key, so that no earlier
    entry has the key and a duplicate further on is never returned; if no
    entry has the key, it raises a [ValueError] whose message contains the
    key. *)
Theorem lookup_first_match w name species k surfaces :
  Forall (fun r => exists nm, get_name r w = (Ok nm, w)) species ->
  Forall (fun r => exists j, get_id r w = (Ok j, w)) surfaces ->
  ((exists i r,
      species !! i = Some r /\ named w name r /\
      (forall j r', (j < i)%nat -> species !! j = Some r' -> ~ named w name r') /\
      find_species_from_name name species w = (Ok r, w))
   \/
   (Forall (fun r => ~ named w name r) species /\
    find_species_from_name name species w
      = (Raise (ValueError ("Species " ++ name ++ " not found in list of species")),
         w)))
  /\
  ((exists i r,
      surfaces !! i = Some r /\ has_id w k r /\
      (forall j r', (j < i)%nat -> surfaces !! j = Some r' -> ~ has_id w k r') /\
      find_surface_from_id k surfaces w = (Ok r, w))
   \/
   (Forall (fun r => ~ has_id w k r) surfaces /\
    find_surface_from_id k surfaces w
      = (Raise (ValueError ("id " ++ pretty k ++ " not found in list of surfaces")),
         w))).
Proof.
  intros Hs Hf. split.
  - exact (find_species_scan w name species Hs).
  - exact (find_surface_scan w k surfaces Hf).
Qed.

Lemma lookup_first_match_witness :
  Forall (fun r => exists nm, get_name r registry = (Ok nm, registry))
    [Some 0%nat; Some 1%nat; Some 2%nat] /\
  Forall (fun r => exists j, get_id r registry = (Ok j, registry))
    [Some 3%nat; Some 4%nat; Some 5%nat] /\
  ((exists i r,
      [Some 0%nat; Some 1%nat; Some 2%nat] !! i = Some r /\
      named registry "H" r /\
      (forall j r', (j < i)%nat ->
         [Some 0%nat; Some 1%nat; Some 2%nat] !! j = Some r' ->
         ~ named registry "H" r') /\
      find_species_from_name "H" [Some 0%nat; Some 1%nat; Some 2%nat] registry
        = (Ok r, registry))
   \/
   (Forall (fun r => ~ named registry "H" r) [Some 0%nat; Some 1%nat; Some 2%nat] /\
    find_species_from_name "H" [Some 0%nat; Some 1%nat; Some 2%nat] registry
      = (Raise (ValueError "Species H not found in list of species"), registry)))
  /\
  ((exists i r,
      [Some 3%nat; Some 4%nat; Some 5%nat] !! i = Some r /\
      has_id registry 7 r /\
      (forall j r', (j < i)%nat ->
         [Some 3%nat; Some 4%nat; Some 5%nat] !! j = Some r' ->
         ~ has_id registry 7 r') /\
      find_surface_from_id 7 [Some 3%nat; Some 4%nat; Some 5%nat] registry
        = (Ok r, registry))
   \/
   (Forall (fun r => ~ has_id registry 7 r) [Some 3%nat; Some 4%nat; Some 5%nat] /\
    find_surface_from_id 7 [Some 3%nat; Some 4%nat; Some 5%nat] registry
      = (Raise (ValueError "id 7 not found in list of surfaces"), registry))).
Proof.
  assert (Hs : Forall (fun r => exists nm, get_name r registry = (Ok nm, registry))
                 [Some 0%nat; Some 1%nat; Some 2%nat])
    by (repeat constructor; eexists; reflexivity).
  assert (Hf : Forall (fun r => exists j, get_id r registry = (Ok j, registry))
                 [Some 3%nat; Some 4%nat; Some 5%nat])
    by (repeat constructor; eexists; reflexivity).
  split; [exact Hs|]. split; [exact Hf|].
  exact (lookup_first_match registry "H" _ 7 _ Hs Hf).
Defined.

(** With two species named [H] in the list, the one inserted first is
    returned; a name or an id that no entry has is reported in the
    message. *)
Example find_species_first_of_duplicates :
  find_species_from_name "H" [Some 0%nat; Some 1%nat; Some 2%nat] registry
    = (Ok (Some 0%nat), registry) /\
  find_species_from_name "T" [Some 0%nat; Some 1%nat; Some 2%nat] registry
    = (Raise (ValueError "Species T not found in list of species"), registry) /\
  find_surface_from_id 1 [Some 3%nat; Some 4%nat; Some 5%nat] registry
    = (Ok (Some 3%nat), registry) /\
  find_surface_from_id 7 [Some 3%nat; Some 4%nat; Some 5%nat] registry
    = (Raise (ValueError "id 7 not found in list of surfaces"), registry).
Proof. repeat split. Qed.

(** Before the solver has bound the solution of [B], the concentration of
    the implicit species over [A] and [B] is refused, and the message names
    both. *)
Example concentration_unsolved_message :
  concentration 2%nat unsolved_world
    = (Raise (ValueError
         "Cannot compute concentration of sites because B has no solution"),
       unsolved_world).
Proof. reflexivity. Qed.

(** * Further properties of the code *)

(** ** Computations that only read *)

Lemma read_only_ret {A} (a : A) : read_only (ret a).
Proof. now intros w. Qed.

Lemma read_only_raise {A} e : read_only (@raise A e).
Proof. now intros w. Qed.

Lemma read_only_lift {A} (r : result A) : read_only (lift r).
Proof. now intros w. Qed.

Lemma read_only_bind {A B} (m : M A) (k : A -> M B) :
  read_only m -> (forall a, read_only (k a)) -> read_only (bind m k).
Proof.
  intros Hm Hk w. unfold bind. specialize (Hm w).
  destruct (m w) as [[a|e] w']; simpl in Hm; subst w'; [apply Hk|reflexivity].
Qed.

Lemma read_only_deref l : read_only (deref l).
Proof. intros w. unfold deref. now destruct (heap w !! l). Qed.

Lemma read_only_target r : read_only (target r).
Proof. destruct r; [apply read_only_deref|apply read_only_raise]. Qed.

Lemma read_only_get_solution r : read_only (get_solution r).
Proof.
  apply read_only_bind; [apply read_only_target|].
  intros []; (apply read_only_ret || apply read_only_raise).
Qed.

Lemma read_only_get_name r : read_only (get_name r).
Proof.
  apply read_only_bind; [apply read_only_target|].
  intros []; (apply read_only_ret || apply read_only_raise).
Qed.

Lemma read_only_get_id r : read_only (get_id r).
Proof.
  apply read_only_bind; [apply read_only_target|].
  intros []; (apply read_only_ret || apply read_only_raise).
Qed.

Lemma read_only_get_implicit self : read_only (get_implicit self).
Proof.
  apply read_only_bind; [apply read_only_deref|].
  intros []; (apply read_only_ret || apply read_only_raise).
Qed.

Lemma read_only_forM {A} (f : A -> M unit) l :
  (forall a, read_only (f a)) -> read_only (forM f l).
Proof.
  intros Hf. induction l as [|a l IH]; [apply read_only_ret|].
  simpl. apply read_only_bind; [apply Hf|intros _; exact IH].
Qed.

Lemma read_only_mapM {A B} (f : A -> M B) l :
  (forall a, read_only (f a)) -> read_only (mapM f l).
Proof.
  intros Hf. induction l as [|a l IH]; [apply read_only_ret|].
  simpl. apply read_only_bind; [apply Hf|intros b].
  apply read_only_bind; [exact IH|intros bs; apply read_only_ret].
Qed.

Lemma read_only_check_solution nm r : read_only (check_solution nm r).
Proof.
  apply read_only_bind; [apply read_only_get_solution|].
  intros []; try apply read_only_ret.
  apply read_only_bind; [apply read_only_get_name|intros; apply read_only_raise].
Qed.

(** X1.  Reading the concentration of an implicit species changes no object
    and calls no user function, whether it answers or raises. *)
Theorem concentration_read_only self : read_only (concentration self).
Proof.
  unfold concentration.
  apply read_only_bind; [apply read_only_get_implicit|intros i].
  destruct (others i) as [os|]; [|apply read_only_raise].
  apply read_only_bind.
  { destruct (0 <? length os)%nat; [|apply read_only_ret].
    apply read_only_forM, read_only_check_solution. }
  intros _. apply read_only_bind.
  { unfold get_value_fenics. destruct (value_fenics i);
      [apply read_only_ret|apply read_only_raise]. }
  intros v. apply read_only_bind.
  { apply read_only_mapM, read_only_get_solution. }
  intros sols. apply read_only_bind; intros; apply read_only_lift.
Qed.

(** X2.  The two lookups change no object and call no user function, whether
    they find the key or raise. *)
Theorem lookups_read_only name species k surfaces :
  read_only (find_species_from_name name species) /\
  read_only (find_surface_from_id k surfaces).
Proof.
  split.
  - induction species as [|r rs IH]; [apply read_only_raise|].
    simpl. apply read_only_bind; [apply read_only_get_name|intros nm].
    destruct (decide (nm = Some name)); [apply read_only_ret|exact IH].
  - induction surfaces as [|r rs IH]; [apply read_only_raise|].
    simpl. apply read_only_bind; [apply read_only_get_id|intros j].
    destruct (decide (j = k)); [apply read_only_ret|exact IH].
Qed.

(** ** The lookups on lists with entries that cannot be read *)

(** X3.  The scan stops at the first entry that has the key: what follows it in
    the list is not read, so it may hold anything. *)
Theorem lookup_stops_at_first_match w name pre r post k pre' r' post' :
  Forall (fun o => exists nm, get_name o w = (Ok nm, w) /\ nm <> Some name) pre ->
  named w name r ->
  Forall (fun o => exists j, get_id o w = (Ok j, w) /\ j <> k) pre' ->
  has_id w k r' ->
  find_species_from_name name (pre ++ r :: post)%list w = (Ok r, w) /\
  find_surface_from_id k (pre' ++ r' :: post')%list w = (Ok r', w).
Proof.
  intros Hpre Hr Hpre' Hr'. split.
  - induction Hpre as [|o pre (nm & Hnm & Hne) _ IH]; simpl.
    + rewrite (bind_ok _ _ _ _ _ Hr). now rewrite decide_True.
    + rewrite (bind_ok _ _ _ _ _ Hnm). now rewrite decide_False.
  - induction Hpre' as [|o pre' (j & Hj & Hne) _ IH]; simpl.
    + rewrite (bind_ok _ _ _ _ _ Hr'). now rewrite decide_True.
    + rewrite (bind_ok _ _ _ _ _ Hj). now rewrite decide_False.
Qed.

(** X4.  An entry whose name (or id) cannot be read, met before any entry with
    the key, makes the lookup raise the error of that read, even if an
    entry with the key follows. *)
Theorem lookup_unreadable_entry w name pre r post k pre' r' post' e e' :
  Forall (fun o => exists nm, get_name o w = (Ok nm, w) /\ nm <> Some name) pre ->
  get_name r w = (Raise e, w) ->
  Forall (fun o => exists j, get_id o w = (Ok j, w) /\ j <> k) pre' ->
  get_id r' w = (Raise e', w) ->
  find_species_from_name name (pre ++ r :: post)%list w = (Raise e, w) /\
  find_surface_from_id k (pre' ++ r' :: post')%list w = (Raise e', w).
Proof.
  intros Hpre Hr Hpre' Hr'. split.
  - induction Hpre as [|o pre (nm & Hnm & Hne) _ IH]; simpl.
    + now rewrite (bind_raise _ _ _ _ _ Hr).
    + rewrite (bind_ok _ _ _ _ _ Hnm). now rewrite decide_False.
  - induction Hpre' as [|o pre' (j & Hj & Hne) _ IH]; simpl.
    + now rewrite (bind_raise _ _ _ _ _ Hr').
    + rewrite (bind_ok _ _ _ _ _ Hj). now rewrite decide_False.
Qed.

Lemma lookup_stops_at_first_match_witness :
  Forall (fun o => exists nm, get_name o registry = (Ok nm, registry) /\ nm <> Some "H")
    [Some 1%nat] /\
  named registry "H" (Some 2%nat) /\
  Forall (fun o => exists j, get_id o registry = (Ok j, registry) /\ j <> 2)
    [Some 3%nat] /\
  has_id registry 2 (Some 4%nat) /\
  find_species_from_name "H" [Some 1%nat; Some 2%nat; None; Some 3%nat] registry
    = (Ok (Some 2%nat), registry) /\
  find_surface_from_id 2 [Some 3%nat; Some 4%nat; None] registry
    = (Ok (Some 4%nat), registry).
Proof.
  assert (H1 : Forall (fun o => exists nm,
                 get_name o registry = (Ok nm, registry) /\ nm <> Some "H")
                 [Some 1%nat])
    by (repeat constructor; eexists; split; [reflexivity|discriminate]).
  assert (H2 : Forall (fun o => exists j,
                 get_id o registry = (Ok j, registry) /\ j <> 2) [Some 3%nat])
    by (repeat constructor; eexists; split; [reflexivity|discriminate]).
  split; [exact H1|]. split; [reflexivity|]. split; [exact H2|].
  split; [reflexivity|].
  exact (lookup_stops_at_first_match registry "H" [Some 1%nat] (Some 2%nat)
           [None; Some 3%nat] 2 [Some 3%nat] (Some 4%nat) [None]
           H1 eq_refl H2 eq_refl).
Defined.

Lemma lookup_unreadable_entry_witness :
  Forall (fun o => exists nm, get_name o registry = (Ok nm, registry) /\ nm <> Some "H")
    [Some 1%nat] /\
  get_name None registry = (Raise AttributeError, registry) /\
  Forall (fun o => exists j, get_id o registry = (Ok j, registry) /\ j <> 1)
    [Some 4%nat] /\
  get_id (Some 0%nat) registry = (Raise AttributeError, registry) /\
  find_species_from_name "H" [Some 1%nat; None; Some 0%nat] registry
    = (Raise AttributeError, registry) /\
  find_surface_from_id 1 [Some 4%nat; Some 0%nat; Some 3%nat] registry
    = (Raise AttributeError, registry).
Proof.
  assert (H1 : Forall (fun o => exists nm,
                 get_name o registry = (Ok nm, registry) /\ nm <> Some "H")
                 [Some 1%nat])
    by (repeat constructor; eexists; split; [reflexivity|discriminate]).
  assert (H2 : Forall (fun o => exists j,
                 get_id o registry = (Ok j, registry) /\ j <> 1) [Some 4%nat])
    by (repeat constructor; eexists; split; [reflexivity|discriminate]).
  split; [exact H1|]. split; [reflexivity|]. split; [exact H2|].
  split; [reflexivity|].
  exact (lookup_unreadable_entry registry "H" [Some 1%nat] None [Some 0%nat]
           1 [Some 4%nat] (Some 0%nat) [Some 3%nat] AttributeError AttributeError
           H1 eq_refl H2 eq_refl).
Defined.

(** ** Reading a concentration out of sequence *)

Lemma scan_passes nm os w :
  Forall (solved w) os -> forM (check_solution nm) os w = (Ok tt, w).
Proof.
  induction 1 as [|o os (s & Hs & Hne) _ IH]; [reflexivity|].
  simpl. now rewrite (bind_ok _ _ _ _ _ (check_solution_solved nm _ _ _ Hs Hne)).
Qed.

Lemma concentration_solved_unbound w self i os :
  heap w !! self = Some (OImplicitSpecies i) ->
  others i = Some os ->
  value_fenics i = None ->
  Forall (solved w) os ->
  concentration self w = (Raise AttributeError, w).
Proof.
  intros Hself Hos Hv Hall.
  rewrite (concentration_scan _ _ _ _ Hself Hos), (scan_passes _ _ _ Hall).
  unfold get_value_fenics. now rewrite Hv.
Qed.

(** X5.  The scan of the dependencies comes first: with a total that has not
    been bound, a dependency without solution is still reported by the
    [ValueError], and only when all are solved does the read fail on the
    missing attribute [value_fenics], with an [AttributeError]. *)
Theorem concentration_unbound w self i os :
  heap w !! self = Some (OImplicitSpecies i) ->
  others i = Some os ->
  value_fenics i = None ->
  Forall (fun o => exists s, solution_is w o s) os ->
  (Forall (solved w) os /\ concentration self w = (Raise AttributeError, w))
  \/
  (Exists (fun o => solution_is w o VNone) os /\
   exists msg, concentration self w = (Raise (ValueError msg), w)).
Proof.
  intros Hself Hos Hv Hsp.
  rewrite (concentration_scan _ _ _ _ Hself Hos).
  destruct (check_scan (imp_name i) os w Hsp)
    as [[Hall Hscan]|(pre & o & post & onm & -> & _ & Hs & _ & Hscan)];
    rewrite Hscan.
  - left. split; [exact Hall|].
    unfold get_value_fenics. now rewrite Hv.
  - right. split; [|eexists; reflexivity].
    apply Exists_app. right. now constructor.
Qed.

Lemma concentration_unbound_witness :
  Forall (fun o => exists s, solution_is unbound_world o s)
    [Some 0%nat; Some 1%nat] /\
  ((Forall (solved unbound_world) [Some 0%nat; Some 1%nat] /\
    concentration 2%nat unbound_world = (Raise AttributeError, unbound_world))
   \/
   (Exists (fun o => solution_is unbound_world o VNone) [Some 0%nat; Some 1%nat] /\
    exists msg, concentration 2%nat unbound_world
                = (Raise (ValueError msg), unbound_world))).
Proof.
  assert (H : Forall (fun o => exists s, solution_is unbound_world o s)
                [Some 0%nat; Some 1%nat])
    by (repeat constructor; eexists; reflexivity).
  split; [exact H|].
  exact (concentration_unbound unbound_world 2%nat _ _ eq_refl eq_refl eq_refl H).
Defined.

Lemma forM_stops {A} (f : A -> M unit) pre a post w e :
  Forall (fun b => f b w = (Ok tt, w)) pre ->
  f a w = (Raise e, w) ->
  forM f (pre ++ a :: post)%list w = (Raise e, w).
Proof.
  intros Hpre Ha. induction Hpre as [|b pre Hb _ IH]; simpl.
  - now rewrite (bind_raise _ _ _ _ _ Ha).
  - now rewrite (bind_ok _ _ _ _ _ Hb).
Qed.

(** X6.  A dependency whose [solution] cannot be read (the entry is [None], or
    an object without the attribute, such as another implicit species),
    met before any dependency without solution, makes the read of the
    concentration raise the error of that access. *)
Theorem concentration_unreadable_dependency w self i pre r post e :
  heap w !! self = Some (OImplicitSpecies i) ->
  others i = Some (pre ++ r :: post)%list ->
  Forall (solved w) pre ->
  get_solution r w = (Raise e, w) ->
  concentration self w = (Raise e, w).
Proof.
  intros Hself Hos Hpre Hr.
  rewrite (concentration_scan _ _ _ _ Hself Hos).
  rewrite (forM_stops (check_solution (imp_name i)) pre r post w e);
    [reflexivity| |].
  - eapply Forall_impl; [exact Hpre|].
    intros o (s & Hs & Hne). eapply check_solution_solved; eassumption.
  - unfold check_solution. now rewrite (bind_raise _ _ _ _ _ Hr).
Qed.

Lemma concentration_unreadable_dependency_witness :
  get_solution (Some 0%nat) nested_world = (Raise AttributeError, nested_world) /\
  concentration 1%nat nested_world = (Raise AttributeError, nested_world).
Proof.
  split; [reflexivity|].
  exact (concentration_unreadable_dependency nested_world 1%nat _ [] (Some 0%nat) []
           AttributeError eq_refl eq_refl (List.Forall_nil _) eq_refl).
Defined.

(** ** Binding totals of the other kinds *)



(** X8.  A total that is neither a number, nor a field, nor a function ([None],
    a string, a list) is accepted in silence: [create_value_fenics] returns
    without assigning [value_fenics] and without touching the store, and
    it is the later read of the concentration, its dependencies solved,
    that fails, with an [AttributeError]. *)
Theorem create_value_fenics_ignores w self i v os mesh t :
  heap w !! self = Some (OImplicitSpecies i) ->
  n i = NVal v ->
  match v with VNum _ | VExpr _ => False | _ => True end ->
  others i = Some os ->
  value_fenics i = None ->
  Forall (solved w) os ->
  create_value_fenics self mesh t w = (Ok tt, w) /\
  (create_value_fenics self mesh t ;;; concentration self) w
    = (Raise AttributeError, w).
Proof.
  intros Hself Hn Hv Hos Hvf Hall.
  assert (Hrun : create_value_fenics self mesh t w = (Ok tt, w)).
  { unfold create_value_fenics.
    rewrite (bind_ok _ _ _ _ _ (get_implicit_ok _ _ _ Hself)). rewrite Hn.
    destruct v; (contradiction || reflexivity). }
  split; [exact Hrun|].
  rewrite (bind_ok _ _ _ _ _ Hrun).
  exact (concentration_solved_unbound w self i os Hself Hos Hvf Hall).
Qed.

Lemma create_value_fenics_ignores_witness :
  Forall (solved unbound_world) [Some 0%nat; Some 1%nat] /\
  create_value_fenics 2%nat 0%nat (VNum (PyFloat 0)) unbound_world
    = (Ok tt, unbound_world) /\
  (create_value_fenics 2%nat 0%nat (VNum (PyFloat 0)) ;;; concentration 2%nat)
    unbound_world
    = (Raise AttributeError, unbound_world).
Proof.
  assert (H : Forall (solved unbound_world) [Some 0%nat; Some 1%nat])
    by (repeat constructor; eexists; (split; [reflexivity|discriminate])).
  split; [exact H|].
  exact (create_value_fenics_ignores unbound_world 2%nat _ VNone _ 0%nat
           (VNum (PyFloat 0)) eq_refl eq_refl I eq_refl eq_refl H).
Defined.

(** ** Errors of the user function, and refreshing out of sequence *)

(** X9.  An exception raised by the first call to the function [n] leaves
    [create_value_fenics] as it is: nothing is bound, no constant is made,
    and the call is the only one made. *)
Theorem create_value_fenics_propagates w self i f mesh t tf e :
  heap w !! self = Some (OImplicitSpecies i) ->
  n i = NFun f ->
  (time_only f = true -> fst (py_float t w) = Ok tf) ->
  body f (first_keywords f mesh t tf) = Raise e ->
  create_value_fenics self mesh t w =
    (Raise e,
     {| heap := heap w;
        calls := (calls w ++ [first_keywords f mesh t tf])%list |}).
Proof.
  intros Hself Hn Hf Hb.
  unfold create_value_fenics.
  rewrite (bind_ok _ _ _ _ _ (get_implicit_ok _ _ _ Hself)). rewrite Hn.
  unfold first_keywords in *.
  change (py_in "t" (co_varnames f) && negb (py_in "x" (co_varnames f))
          && negb (py_in "T" (co_varnames f))) with (time_only f).
  destruct (time_only f).
  - rewrite (bind_ok _ _ _ _ _ (py_float_ok t w w tf (Hf eq_refl) eq_refl)).
    unfold call at 1. unfold bind at 1. now rewrite Hb.
  - revert Hb.
    destruct (py_in "t" (co_varnames f)), (py_in "x" (co_varnames f));
      cbn [app]; intros Hb; unfold call at 1; unfold bind at 1; now rewrite Hb.
Qed.

Lemma create_value_fenics_propagates_witness :
  fst (py_float (VExpr (Constant 0%nat)) raising_world) = Ok (PyFloat 0) /\
  body lambda_t_raise (first_keywords lambda_t_raise 0%nat (VExpr (Constant 0%nat))
                         (PyFloat 0))
    = Raise (ValueError "no density") /\
  create_value_fenics 1%nat 0%nat (VExpr (Constant 0%nat)) raising_world =
    (Raise (ValueError "no density"),
     {| heap := heap raising_world;
        calls := [[("t", VNum (PyFloat 0))]] |}).
Proof.
  split; [reflexivity|]. split; [reflexivity|].
  exact (create_value_fenics_propagates raising_world 1%nat _ lambda_t_raise 0%nat
           (VExpr (Constant 0%nat)) (PyFloat 0) (ValueError "no density")
           eq_refl eq_refl (fun _ => eq_refl) eq_refl).
Defined.

(** X10.  Refreshing a total that is a function before it has been bound fails
    on the missing attribute [value_fenics], with an [AttributeError], and
    the function is not called. *)
Theorem update_density_unbound w self i f t :
  heap w !! self = Some (OImplicitSpecies i) ->
  n i = NFun f ->
  value_fenics i = None ->
  update_density self t w = (Raise AttributeError, w).
Proof.
  intros Hself Hn Hv. unfold update_density.
  rewrite (bind_ok _ _ _ _ _ (get_implicit_ok _ _ _ Hself)). rewrite Hn.
  unfold get_value_fenics. now rewrite Hv.
Qed.

Lemma update_density_unbound_witness :
  update_density 1%nat (VNum (PyFloat 5)) time_world
    = (Raise AttributeError, time_world).
Proof.
  exact (update_density_unbound time_world 1%nat _ lambda_t_t (VNum (PyFloat 5))
           eq_refl eq_refl eq_refl).
Defined.

(** ** What a refresh does and does not do

    A user function answers from its keywords and is taken to touch no
    object of the store itself; what follows is about the code of the
    methods. *)

Lemma update_density_run w self i f c k t v :
  heap w !! self = Some (OImplicitSpecies i) ->
  n i = NFun f ->
  value_fenics i = Some (VExpr (Constant c)) ->
  py_in "t" (co_varnames f) = true ->
  heap w !! c = Some (OConstant k) ->
  body f [("t", t)] = Ok (VNum v) ->
  update_density self t w =
    (Ok tt,
     {| heap := <[c := OConstant {| constant_mesh := constant_mesh k;
                                    constant_value := v |}]> (heap w);
        calls := (calls w ++ [[("t", t)]])%list |}).
Proof.
  intros Hself Hn Hv Ht Hc Hb. unfold update_density.
  rewrite (bind_ok _ _ _ _ _ (get_implicit_ok _ _ _ Hself)). rewrite Hn.
  unfold get_value_fenics. rewrite Hv. unfold bind at 1. cbn [ret]. rewrite Ht.
  unfold call at 1. unfold bind at 1. rewrite Hb.
  unfold set_constant_value.
  erewrite bind_ok; [|apply deref_ok; exact Hc].
  reflexivity.
Qed.

(** X11.  Whenever the total is a function with [t] among its names and
    [value_fenics] is a constant field, however it came to be one, the
    refresh calls the function with the keyword [t] alone (also when the
    function has [x] among its names) and overwrites the value of that
    constant in place: the constant keeps its address and its mesh, and
    the implicit species is not modified. *)
Theorem update_density_in_place w self i f c k t v :
  heap w !! self = Some (OImplicitSpecies i) ->
  n i = NFun f ->
  value_fenics i = Some (VExpr (Constant c)) ->
  py_in "t" (co_varnames f) = true ->
  heap w !! c = Some (OConstant k) ->
  body f [("t", t)] = Ok (VNum v) ->
  exists w1,
    update_density self t w = (Ok tt, w1) /\
    calls w1 = (calls w ++ [[("t", t)]])%list /\
    length (heap w1) = length (heap w) /\
    heap w1 !! self = Some (OImplicitSpecies i) /\
    heap w1 !! c = Some (OConstant {| constant_mesh := constant_mesh k;
                                      constant_value := v |}).
Proof.
  intros Hself Hn Hv Ht Hc Hb.
  eexists. split; [exact (update_density_run _ _ _ _ _ _ _ _ Hself Hn Hv Ht Hc Hb)|].
  cbn [heap calls]. split; [reflexivity|]. split; [apply length_insert|].
  assert (Hne : c <> self) by (intros ->; congruence).
  split.
  - now rewrite list_lookup_insert_ne.
  - apply list_lookup_insert_eq. eapply lookup_lt_Some, Hc.
Qed.

Lemma update_density_in_place_witness :
  exists w1,
    update_density 1%nat (VNum (PyFloat 5)) bound_time_world = (Ok tt, w1) /\
    calls w1 = (calls bound_time_world ++ [[("t", VNum (PyFloat 5))]])%list /\
    length (heap w1) = 3%nat /\
    heap w1 !! 1%nat =
      Some (OImplicitSpecies
              (bound (ImplicitSpecies_init (NFun lambda_t_t) (Some []) (Some "sites"))
                     (VExpr (Constant 2%nat)))) /\
    heap w1 !! 2%nat =
      Some (OConstant {| constant_mesh := 0%nat; constant_value := PyFloat 5 |}).
Proof.
  exact (update_density_in_place bound_time_world 1%nat _ lambda_t_t 2%nat
           {| constant_mesh := 0%nat; constant_value := PyFloat 0 |}
           (VNum (PyFloat 5)) (PyFloat 5)
           eq_refl eq_refl eq_refl eq_refl eq_refl eq_refl).
Defined.

(** X12.  The refresh changes the store or the log of calls only when the total
    is a function with [t] among its names and [value_fenics] is a
    constant field; in every other state it leaves them as they are. *)
Theorem update_density_changes_only_constants w self t :
  snd (update_density self t w) <> w ->
  exists i f c,
    heap w !! self = Some (OImplicitSpecies i) /\
    n i = NFun f /\
    py_in "t" (co_varnames f) = true /\
    value_fenics i = Some (VExpr (Constant c)).
Proof.
  intros Hch.
  unfold update_density, get_implicit, get_value_fenics, deref, bind, ret, raise
    in Hch.
  destruct (heap w !! self) as [o|] eqn:Hself;
    [|exfalso; apply Hch; reflexivity].
  destruct o as [s|tr|i|r|k|s]; try (exfalso; apply Hch; reflexivity).
  destruct (n i) as [v|f] eqn:Hn.
  { exfalso; apply Hch. now destruct v as [| | | |e]. }
  destruct (value_fenics i) as [v|] eqn:Hv;
    [|exfalso; apply Hch; reflexivity].
  destruct v as [| | | |e]; try (exfalso; apply Hch; reflexivity).
  destruct e; try (exfalso; apply Hch; reflexivity).
  destruct (py_in "t" (co_varnames f)) eqn:Ht;
    [|exfalso; apply Hch; reflexivity].
  now exists i, f, c.
Qed.

Lemma update_density_changes_only_constants_witness :
  snd (update_density 1%nat (VNum (PyFloat 5)) bound_time_world)
    <> bound_time_world /\
  exists i f c,
    heap bound_time_world !! 1%nat = Some (OImplicitSpecies i) /\
    n i = NFun f /\
    py_in "t" (co_varnames f) = true /\
    value_fenics i = Some (VExpr (Constant c)).
Proof.
  assert (H : snd (update_density 1%nat (VNum (PyFloat 5)) bound_time_world)
              <> bound_time_world).
  { intros E. apply (f_equal (fun w => length (calls w))) in E. discriminate E. }
  split; [exact H|].
  exact (update_density_changes_only_constants bound_time_world 1%nat
           (VNum (PyFloat 5)) H).
Defined.

Lemma set_constant_value_heap c v w :
  heap (snd (set_constant_value c v w)) = heap w \/
  exists k x,
    heap w !! c = Some (OConstant k) /\
    heap (snd (set_constant_value c v w))
      = <[c := OConstant {| constant_mesh := constant_mesh k;
                            constant_value := x |}]> (heap w).
Proof.
  unfold set_constant_value, deref, bind, store, raise.
  destruct (heap w !! c) as [o|] eqn:Hc; [|now left].
  destruct o as [s|tr|i|r|k|s]; try (left; now destruct v).
  destruct v as [|x| | |]; try now left.
  right. now exists k, x.
Qed.

Lemma update_density_heap w self t :
  heap (snd (update_density self t w)) = heap w \/
  exists c k x,
    heap w !! c = Some (OConstant k) /\
    heap (snd (update_density self t w))
      = <[c := OConstant {| constant_mesh := constant_mesh k;
                            constant_value := x |}]> (heap w).
Proof.
  remember (update_density self t w) as res eqn:Hres.
  unfold update_density, get_implicit, get_value_fenics, deref, bind, call,
    ret, raise in Hres.
  destruct (heap w !! self) as [o|] eqn:Hself; [|subst res; now left].
  destruct o as [s|tr|i|r|k|s]; try (subst res; now left).
  destruct (n i) as [v|f].
  { left. subst res. now destruct v as [| | | |e]. }
  destruct (value_fenics i) as [v|]; [|subst res; now left].
  destruct v as [| | | |e]; try (subst res; now left).
  destruct e; try (subst res; now left).
  destruct (py_in "t" (co_varnames f)); [|subst res; now left].
  destruct (body f [("t", t)]) as [r|e]; [|subst res; now left].
  subst res.
  destruct (set_constant_value_heap c r
              {| heap := heap w; calls := (calls w ++ [[("t", t)]])%list |})
    as [H|(k & x & Hk & H)]; [now left|].
  right. exists c, k, x. split; [exact Hk|exact H].
Qed.

(** X13.  A refresh never makes or removes an object, and it modifies none but
    constant fields: every other object of the store, the implicit species
    included, is the same afterwards, and a constant field is still a
    constant field on the same mesh. *)
Theorem update_density_frame w self t l o :
  heap w !! l = Some o ->
  length (heap (snd (update_density self t w))) = length (heap w) /\
  exists o',
    heap (snd (update_density self t w)) !! l = Some o' /\
    match o with
    | OConstant k => exists k', o' = OConstant k' /\ constant_mesh k' = constant_mesh k
    | _ => o' = o
    end.
Proof.
  intros Hl.
  assert (Hsame : match o with
                  | OConstant k =>
                      exists k', o = OConstant k' /\ constant_mesh k' = constant_mesh k
                  | _ => o = o
                  end) by (destruct o; eauto).
  destruct (update_density_heap w self t) as [->|(c & k & x & Hc & ->)].
  - split; [reflexivity|]. exists o. now split.
  - split; [apply length_insert|].
    destruct (decide (c = l)) as [->|Hne].
    + rewrite Hl in Hc. injection Hc as ->.
      eexists. split; [apply list_lookup_insert_eq; eapply lookup_lt_Some, Hl|].
      eexists. split; reflexivity.
    + exists o. split; [now rewrite list_lookup_insert_ne|exact Hsame].
Qed.

Lemma update_density_frame_witness :
  length (heap (snd (update_density 1%nat (VNum (PyFloat 5)) bound_time_world)))
    = 3%nat /\
  exists o',
    heap (snd (update_density 1%nat (VNum (PyFloat 5)) bound_time_world)) !! 1%nat
      = Some o' /\
    o' = OImplicitSpecies
           (bound (ImplicitSpecies_init (NFun lambda_t_t) (Some []) (Some "sites"))
                  (VExpr (Constant 2%nat))).
Proof.
  exact (update_density_frame bound_time_world 1%nat (VNum (PyFloat 5)) 1%nat _
           eq_refl).
Defined.

Lemma create_value_fenics_time_run w self i f mesh t0 tf0 v0 :
  heap w !! self = Some (OImplicitSpecies i) ->
  n i = NFun f ->
  time_only f = true ->
  fst (py_float t0 w) = Ok tf0 ->
  body f [("t", VNum tf0)] = Ok (VNum v0) ->
  create_value_fenics self mesh t0 w =
    (Ok tt,
     {| heap := <[self := OImplicitSpecies
                            (bound i (VExpr (Constant (length (heap w)))))]>
                  (heap w ++ [OConstant {| constant_mesh := mesh;
                                           constant_value := v0 |}])%list;
        calls := (calls w ++ [[("t", VNum tf0)]; [("t", VNum tf0)]])%list |}).
Proof.
  intros Hself Hn Ht Hf Hb0.
  unfold create_value_fenics.
  rewrite (bind_ok _ _ _ _ _ (get_implicit_ok _ _ _ Hself)). rewrite Hn.
  change (py_in "t" (co_varnames f) && negb (py_in "x" (co_varnames f))
          && negb (py_in "T" (co_varnames f))) with (time_only f).
  rewrite Ht.
  rewrite (bind_ok _ _ _ _ _ (py_float_ok t0 w w tf0 Hf eq_refl)).
  unfold call at 1. unfold bind at 1. rewrite Hb0. cbn [is_number].
  erewrite bind_ok; [|apply (py_float_ok t0 w); [exact Hf|reflexivity]].
  unfold call at 1. unfold bind at 1. cbn [heap calls]. rewrite Hb0.
  unfold as_fenics_constant, new. unfold bind at 1. unfold bind at 1.
  cbn [heap calls ret].
  rewrite (set_value_fenics_ok self i); [|cbn [heap]; now apply lookup_old].
  cbn [heap calls]. now rewrite <- app_assoc.
Qed.

(** X14.  Binding a function of the time alone and then refreshing it twice
    makes one constant in all and calls the function four times: twice at
    [float(t0)] for the bind, once at each refresh.  The second refresh
    overwrites what the first wrote, so that the store at the end is the
    one that a single refresh at the last time would leave. *)
Theorem refresh_twice w self i f mesh t0 tf0 v0 t1 v1 t2 v2 :
  heap w !! self = Some (OImplicitSpecies i) ->
  n i = NFun f ->
  time_only f = true ->
  fst (py_float t0 w) = Ok tf0 ->
  body f [("t", VNum tf0)] = Ok (VNum v0) ->
  body f [("t", t1)] = Ok (VNum v1) ->
  body f [("t", t2)] = Ok (VNum v2) ->
  (create_value_fenics self mesh t0 ;;;
   update_density self t1 ;;;
   update_density self t2) w =
    (Ok tt,
     {| heap := (<[self := OImplicitSpecies
                             (bound i (VExpr (Constant (length (heap w)))))]>
                   (heap w)
                 ++ [OConstant {| constant_mesh := mesh; constant_value := v2 |}])%list;
        calls := (calls w ++ [[("t", VNum tf0)]; [("t", VNum tf0)];
                              [("t", t1)]; [("t", t2)]])%list |}).
Proof.
  intros Hself Hn Ht Hf Hb0 Hb1 Hb2.
  assert (Hlt : (self < length (heap w))%nat) by (eapply lookup_lt_Some, Hself).
  assert (Htin : py_in "t" (co_varnames f) = true).
  { unfold time_only in Ht. now destruct (py_in "t" (co_varnames f)). }
  set (c := length (heap w)) in *.
  rewrite (bind_ok _ _ _ _ _
             (create_value_fenics_time_run _ _ _ _ mesh _ _ _ Hself Hn Ht Hf Hb0)).
  fold c.
  erewrite bind_ok;
    [|eapply update_density_run with (i := bound i (VExpr (Constant c))) (c := c);
      cbn [heap bound n value_fenics];
      [apply list_lookup_insert_eq; rewrite length_app; simpl; lia
      |exact Hn|reflexivity|exact Htin
      |rewrite list_lookup_insert_ne by lia; apply lookup_fresh
      |exact Hb1]].
  erewrite update_density_run with (i := bound i (VExpr (Constant c))) (c := c);
    cbn [heap calls bound n value_fenics constant_mesh];
    [|rewrite list_lookup_insert_ne by lia;
      apply list_lookup_insert_eq; rewrite length_app; simpl; lia
     |exact Hn|reflexivity|exact Htin
     |apply list_lookup_insert_eq; rewrite length_insert, length_app; simpl; lia
     |exact Hb2].
  f_equal. f_equal.
  - rewrite list_insert_insert_eq.
    rewrite insert_app_l by lia.
    rewrite insert_app_r_alt by (rewrite length_insert; lia).
    rewrite length_insert. unfold c. now rewrite Nat.sub_diag.
  - now rewrite <- !app_assoc.
Qed.

Lemma refresh_twice_witness :
  fst (py_float (VExpr (Constant 0%nat)) time_world) = Ok (PyFloat 0) /\
  (create_value_fenics 1%nat 0%nat (VExpr (Constant 0%nat)) ;;;
   update_density 1%nat (VNum (PyFloat 5)) ;;;
   update_density 1%nat (VNum (PyFloat 7))) time_world =
    (Ok tt,
     {| heap := [OConstant {| constant_mesh := 0%nat; constant_value := PyFloat 0 |};
                 OImplicitSpecies
                   (bound (ImplicitSpecies_init (NFun lambda_t_t) (Some [])
                             (Some "sites"))
                          (VExpr (Constant 2%nat)));
                 OConstant {| constant_mesh := 0%nat; constant_value := PyFloat 7 |}];
        calls := [[("t", VNum (PyFloat 0))]; [("t", VNum (PyFloat 0))];
                  [("t", VNum (PyFloat 5))]; [("t", VNum (PyFloat 7))]] |}).
Proof.
  split; [reflexivity|].
  exact (refresh_twice time_world 1%nat _ lambda_t_t 0%nat (VExpr (Constant 0%nat))
           (PyFloat 0) (PyFloat 0) (VNum (PyFloat 5)) (PyFloat 5)
           (VNum (PyFloat 7)) (PyFloat 7)
           eq_refl eq_refl eq_refl eq_refl eq_refl eq_refl eq_refl).
Defined.

(** ** What a bind leaves alone

    A user function answers from its keywords and is taken to touch no
    object of the store itself; what follows is about the code of the
    methods. *)




(** ** Expanding a trap, again and further *)

Lemma create_species_and_reaction_run w self t :
  heap w !! self = Some (OTrap t) ->
  create_species_and_reaction self w =
    (Ok tt,
     {| heap := (<[self := OTrap (expanded t (length (heap w)) (S (length (heap w)))
                               (S (S (length (heap w)))))]> (heap w)
                 ++ expansion t (length (heap w)))%list;
        calls := calls w |}).
Proof.
  intros Hself.
  assert (Hlt : (self < length (heap w))%nat) by (eapply lookup_lt_Some, Hself).
  set (c := length (heap w)) in *.
  unfold create_species_and_reaction.
  rewrite (bind_ok _ _ _ _ _ (get_trap_ok _ _ _ Hself)).
  unfold Species_new, new. unfold bind at 1. fold c.
  unfold set_trapped_concentration. unfold bind at 1.
  erewrite bind_ok; [|apply get_trap_ok; cbn [heap]; apply lookup_old, Hself].
  unfold store. cbn [heap calls].
  erewrite bind_ok; [|apply get_trap_ok; cbn [heap];
    apply list_lookup_insert_eq; heap_length; lia].
  cbn [trap_n trapped_concentration].
  unfold ImplicitSpecies_new, new. unfold bind at 1. cbn [heap calls].
  heap_length. fold c.
  replace (c + 1)%nat with (S c) by lia.
  unfold set_empty_trap_sites. unfold bind at 1.
  erewrite bind_ok; [|apply get_trap_ok; cbn [heap]; apply lookup_old;
    apply list_lookup_insert_eq; heap_length; lia].
  unfold store.
  cbn [heap calls trap_species mobile_species k_0 E_k p_0 E_p trap_n volume
       trapped_concentration empty_trap_sites reaction].
  erewrite bind_ok; [|apply get_trap_ok; cbn [heap];
    apply list_lookup_insert_eq; heap_length; lia].
  cbn [trap_species mobile_species k_0 E_k p_0 E_p trap_n volume
       trapped_concentration empty_trap_sites reaction].
  unfold Reaction_new, new. unfold bind at 1. cbn [heap calls].
  heap_length. fold c.
  replace (c + 1 + 1)%nat with (S (S c)) by lia.
  unfold set_reaction.
  erewrite bind_ok; [|apply get_trap_ok; cbn [heap]; apply lookup_old;
    apply list_lookup_insert_eq; heap_length; lia].
  unfold store. cbn [heap calls trap_species mobile_species k_0 E_k p_0 E_p
    trap_n volume trapped_concentration empty_trap_sites reaction].
  f_equal. f_equal. unfold expanded, expansion.
  repeat (rewrite insert_fresh by (heap_length; lia)).
  rewrite !list_insert_insert_eq.
  rewrite <- !app_assoc. reflexivity.
Qed.

(** The objects of an expansion, by address. *)
Lemma expansion_lookup (h : list obj) t :
  (h ++ expansion t (length h))%list !! length h
    = Some (OSpecies (Species_init (name (trap_species t)) false)) /\
  (h ++ expansion t (length h))%list !! S (length h)
    = Some (OImplicitSpecies
              (ImplicitSpecies_init (trap_n t) (Some [Some (length h)]) None)).
Proof.
  split.
  - rewrite lookup_app_r by lia. now rewrite Nat.sub_diag.
  - rewrite lookup_app_r by lia.
    now replace (S (length h) - length h)%nat with 1%nat by lia.
Qed.

Lemma get_solution_species w l s :
  heap w !! l = Some (OSpecies s) -> get_solution (Some l) w = (Ok (solution s), w).
Proof.
  intros H. unfold get_solution, target.
  now rewrite (bind_ok _ _ _ _ _ (deref_ok _ _ _ H)).
Qed.

Lemma get_name_species w l s :
  heap w !! l = Some (OSpecies s) -> get_name (Some l) w = (Ok (name s), w).
Proof.
  intros H. unfold get_name, target.
  now rewrite (bind_ok _ _ _ _ _ (deref_ok _ _ _ H)).
Qed.

Lemma get_name_trap w l t :
  heap w !! l = Some (OTrap t) ->
  get_name (Some l) w = (Ok (name (trap_species t)), w).
Proof.
  intros H. unfold get_name, target.
  now rewrite (bind_ok _ _ _ _ _ (deref_ok _ _ _ H)).
Qed.

(** X16.  Nothing guards the expansion against being run twice: a second run
    makes three more objects, to which the attributes of the trap then
    refer, and leaves the three of the first run in the store. *)
Theorem create_species_and_reaction_twice w self t :
  heap w !! self = Some (OTrap t) ->
  (create_species_and_reaction self ;;; create_species_and_reaction self) w =
    (Ok tt,
     {| heap := (<[self := OTrap (expanded t (3 + length (heap w))%nat
                               (4 + length (heap w))%nat
                               (5 + length (heap w))%nat)]>
                   (heap w)
                 ++ expansion t (length (heap w))
                 ++ expansion t (3 + length (heap w))%nat)%list;
        calls := calls w |}).
Proof.
  intros Hself.
  assert (Hlt : (self < length (heap w))%nat) by (eapply lookup_lt_Some, Hself).
  rewrite (bind_ok _ _ _ _ _ (create_species_and_reaction_run _ _ _ Hself)).
  erewrite create_species_and_reaction_run;
    [|cbn [heap]; rewrite lookup_app_l by (rewrite length_insert; lia);
      now apply list_lookup_insert_eq].
  cbn [heap calls]. f_equal. f_equal.
  heap_length.
  change (length (expansion t (length (heap w)))) with 3%nat.
  rewrite (Nat.add_comm (length (heap w)) 3).
  rewrite insert_app_l by (rewrite length_insert; lia).
  rewrite list_insert_insert_eq.
  rewrite <- app_assoc. reflexivity.
Qed.

Lemma create_species_and_reaction_twice_witness :
  (create_species_and_reaction 1%nat ;;; create_species_and_reaction 1%nat)
    trap_world =
    (Ok tt,
     {| heap := (<[1%nat := OTrap
                    (expanded (Trap_init (Some "trapped") (Some 0%nat)
                                 (VNum (PyInt 1)) (VNum (PyInt 1))
                                 (VNum (PyInt 1)) (VNum (PyInt 1))
                                 (NVal (VNum (PyInt 1))) 7%nat)
                       5%nat 6%nat 7%nat)]> (heap trap_world)
                 ++ expansion (Trap_init (Some "trapped") (Some 0%nat)
                                 (VNum (PyInt 1)) (VNum (PyInt 1))
                                 (VNum (PyInt 1)) (VNum (PyInt 1))
                                 (NVal (VNum (PyInt 1))) 7%nat) 2%nat
                 ++ expansion (Trap_init (Some "trapped") (Some 0%nat)
                                 (VNum (PyInt 1)) (VNum (PyInt 1))
                                 (VNum (PyInt 1)) (VNum (PyInt 1))
                                 (NVal (VNum (PyInt 1))) 7%nat) 5%nat)%list;
        calls := [] |}).
Proof.
  exact (create_species_and_reaction_twice trap_world 1%nat _ eq_refl).
Defined.

(** X17.  Right after the expansion the trapped species has no solution yet, so
    reading the concentration of the empty trap sites raises the
    [ValueError] of the unresolved dependency; the implicit species was
    made without a name, so the message calls it [None], and it names the
    dependency after the trap. *)
Theorem empty_trap_sites_unresolved w self t :
  heap w !! self = Some (OTrap t) ->
  exists w1,
    create_species_and_reaction self w = (Ok tt, w1) /\
    concentration (S (length (heap w))) w1 =
      (Raise (ValueError ("Cannot compute concentration of None because "
                          ++ py_str (name (trap_species t))
                          ++ " has no solution")), w1).
Proof.
  intros Hself.
  assert (Hlt : (self < length (heap w))%nat) by (eapply lookup_lt_Some, Hself).
  eexists. split; [exact (create_species_and_reaction_run _ _ _ Hself)|].
  set (T := OTrap _).
  assert (Hlen : length (<[self := T]> (heap w)) = length (heap w))
    by apply length_insert.
  destruct (expansion_lookup (<[self := T]> (heap w)) t) as [H0 H1].
  rewrite Hlen in H0, H1.
  erewrite concentration_scan; [|cbn [heap]; exact H1|reflexivity].
  cbn [forM imp_name ImplicitSpecies_init].
  erewrite bind_raise; [reflexivity|].
  apply (check_solution_unsolved None _ _ (name (trap_species t))).
  - apply get_solution_species with (s := Species_init (name (trap_species t)) false).
    exact H0.
  - apply get_name_species with (s := Species_init (name (trap_species t)) false).
    exact H0.
Qed.

Lemma empty_trap_sites_unresolved_witness :
  exists w1,
    create_species_and_reaction 1%nat trap_world = (Ok tt, w1) /\
    concentration 3%nat w1 =
      (Raise (ValueError
         "Cannot compute concentration of None because trapped has no solution"),
       w1).
Proof.
  exact (empty_trap_sites_unresolved trap_world 1%nat _ eq_refl).
Defined.

(** X18.  The trapped species gets the name of the trap, so a lookup by that
    name among the trap and its trapped species answers whichever of the
    two comes first in the list. *)
Theorem lookup_after_expansion w self t nm :
  heap w !! self = Some (OTrap t) ->
  name (trap_species t) = Some nm ->
  exists w1,
    create_species_and_reaction self w = (Ok tt, w1) /\
    find_species_from_name nm [Some self; Some (length (heap w))] w1
      = (Ok (Some self), w1) /\
    find_species_from_name nm [Some (length (heap w)); Some self] w1
      = (Ok (Some (length (heap w))), w1).
Proof.
  intros Hself Hnm.
  assert (Hlt : (self < length (heap w))%nat) by (eapply lookup_lt_Some, Hself).
  eexists. split; [exact (create_species_and_reaction_run _ _ _ Hself)|].
  set (T := OTrap _).
  assert (Hlen : length (<[self := T]> (heap w)) = length (heap w))
    by apply length_insert.
  destruct (expansion_lookup (<[self := T]> (heap w)) t) as [H0 _].
  rewrite Hlen in H0.
  set (w1 := {| heap := _; calls := _ |}).
  assert (Hs : get_name (Some self) w1 = (Ok (Some nm), w1)).
  { rewrite <- Hnm.
    apply (get_name_trap w1 self
             (expanded t (length (heap w)) (S (length (heap w)))
                (S (S (length (heap w)))))).
    cbn [heap w1]. rewrite lookup_app_l by (rewrite Hlen; lia).
    now apply list_lookup_insert_eq. }
  assert (Hc : get_name (Some (length (heap w))) w1 = (Ok (Some nm), w1)).
  { rewrite <- Hnm. exact (get_name_species w1 _ _ H0). }
  split; simpl.
  - rewrite (bind_ok _ _ _ _ _ Hs). now rewrite decide_True.
  - rewrite (bind_ok _ _ _ _ _ Hc). now rewrite decide_True.
Qed.

Lemma lookup_after_expansion_witness :
  exists w1,
    create_species_and_reaction 1%nat trap_world = (Ok tt, w1) /\
    find_species_from_name "trapped" [Some 1%nat; Some 2%nat] w1
      = (Ok (Some 1%nat), w1) /\
    find_species_from_name "trapped" [Some 2%nat; Some 1%nat] w1
      = (Ok (Some 2%nat), w1).
Proof.
  exact (lookup_after_expansion trap_world 1%nat _ "trapped" eq_refl eq_refl).
Defined.

(** ** Species before the solver has run, and how they print *)

(** X19.  A species or a trap that has just been constructed has no solution:
    reading its concentration answers [None] and raises nothing, unlike the
    read on an implicit species over it. *)
Theorem new_species_concentration w nm mob ms k0 ek p0 ep dens vol :
  (l <- Species_new nm mob ;; Species_concentration l) w =
    (Ok VNone,
     {| heap := (heap w ++ [OSpecies (Species_init nm mob)])%list;
        calls := calls w |}) /\
  (l <- Trap_new nm ms k0 ek p0 ep dens vol ;; Species_concentration l) w =
    (Ok VNone,
     {| heap := (heap w ++ [OTrap (Trap_init nm ms k0 ek p0 ep dens vol)])%list;
        calls := calls w |}).
Proof.
  split.
  - unfold Species_new, new, Species_concentration, get_solution, target.
    unfold bind at 1.
    erewrite bind_ok; [|apply deref_ok; cbn [heap]; apply lookup_fresh].
    reflexivity.
  - unfold Trap_new, new, Species_concentration, get_solution, target.
    unfold bind at 1.
    erewrite bind_ok; [|apply deref_ok; cbn [heap]; apply lookup_fresh].
    reflexivity.
Qed.

(** X20.  A trap prints as a species, [Species(<name>)], and so does the trapped
    species that its expansion makes: the two are different objects, yet
    [repr] and [str] of the one and of the other are the same text. *)
Theorem trap_and_trapped_print_alike w self t :
  heap w !! self = Some (OTrap t) ->
  exists w1 tr s,
    create_species_and_reaction self w = (Ok tt, w1) /\
    heap w1 !! self = Some (OTrap tr) /\
    trapped_concentration tr = Some (length (heap w)) /\
    length (heap w) <> self /\
    heap w1 !! length (heap w) = Some (OSpecies s) /\
    Species_repr s = Species_repr (trap_species tr) /\
    Species_str s = Species_str (trap_species tr).
Proof.
  intros Hself.
  assert (Hlt : (self < length (heap w))%nat) by (eapply lookup_lt_Some, Hself).
  eexists _, _, _. split; [exact (create_species_and_reaction_run _ _ _ Hself)|].
  cbn [heap].
  split.
  { rewrite lookup_app_l by (rewrite length_insert; lia).
    now apply list_lookup_insert_eq. }
  split; [reflexivity|]. split; [lia|].
  split.
  { set (T := OTrap _).
    destruct (expansion_lookup (<[self := T]> (heap w)) t) as [H0 _].
    rewrite length_insert in H0. exact H0. }
  split; reflexivity.
Qed.

Lemma trap_and_trapped_print_alike_witness :
  exists w1 tr s,
    create_species_and_reaction 1%nat trap_world = (Ok tt, w1) /\
    heap w1 !! 1%nat = Some (OTrap tr) /\
    trapped_concentration tr = Some 2%nat /\
    2%nat <> 1%nat /\
    heap w1 !! 2%nat = Some (OSpecies s) /\
    Species_repr s = Species_repr (trap_species tr) /\
    Species_str s = Species_str (trap_species tr).
Proof.
  exact (trap_and_trapped_print_alike trap_world 1%nat _ eq_refl).
Defined.

Example trapped_species_prints :
  Species_repr (Species_init (Some "trapped") false) = "Species(trapped)" /\
  Species_str (Species_init (Some "trapped") false) = "trapped" /\
  Species_repr (Species_init None true) = "Species(None)".
Proof. repeat split. Qed.





